(** * PointCloudsPython: a shallow embedding of [point_cloud.py]

    The module manipulates point clouds stored as n x 3 numpy arrays of
    IEEE 754 floating-point numbers.  An array is modelled as the list of its
    rows, a row as a record of three floats, and a float as a [spec_float]
    (sign, mantissa, exponent, with the two infinities and NaN), so that
    [isnan], [isinf] and the comparisons behave as numpy's do.  The two sides
    of a comparison are values of one format, numpy having promoted them to a
    common dtype.  Python exceptions are values of [exn], one constructor per
    message of the module and one per numpy exception class, carried by
    [result]. *)

From Stdlib Require Import String.
From Stdlib Require Import ZArith List Bool Lia.
From Stdlib Require Import Floats.SpecFloat.
Import ListNotations.

Set Implicit Arguments.

(** ** Floating-point scalars *)

Definition float := spec_float.

Definition isnan (f : float) : bool :=
  match f with S754_nan => true | _ => false end.

Definition isinf (f : float) : bool :=
  match f with S754_infinity _ => true | _ => false end.

(** [a >= b] and [a <= b] on floats: false as soon as one side is NaN. *)
Definition fge (a b : float) : bool := SFleb b a.
Definition fle (a b : float) : bool := SFleb a b.
Definition flt (a b : float) : bool := SFltb a b.

Definition fzero : float := S754_zero false.
Definition pinf : float := S754_infinity false.

(** ** Rows and arrays *)

Record vec3 := V3 { c0 : float; c1 : float; c2 : float }.

Definition array3 := list vec3.

(** [a.any(axis=1)] for an elementwise test [t]: one boolean per row. *)
Definition row_any (t : float -> bool) (v : vec3) : bool :=
  t (c0 v) || t (c1 v) || t (c2 v).

Definition any_axis1 (t : float -> bool) (a : array3) : list bool :=
  map (row_any t) a.

Definition logical_not (m : list bool) : list bool := map negb m.

Fixpoint zip_with {A B C} (f : A -> B -> C) (l : list A) (r : list B) : list C :=
  match l, r with
  | x :: l', y :: r' => f x y :: zip_with f l' r'
  | _, _ => []
  end.

Definition logical_and : list bool -> list bool -> list bool := zip_with andb.
Definition logical_or : list bool -> list bool -> list bool := zip_with orb.

(** ** Exceptions *)

Inductive exn :=
| InvalidArgument          (* "Invalid argument to Compute Normals ..." *)
| NormalsSizeMismatch      (* "Size of normals output from PCL did not match ..." *)
| ThetaInvalid             (* "Theta contains invalid values. Saved cloud and normals." *)
| SaveFailed (fileName : string)   (* "Failed to save ..." *)
| IndexError               (* numpy: index out of bounds, boolean index mismatch *)
| ValueError.              (* numpy: shapes cannot be broadcast, negative dimension *)

Inductive result (A : Type) :=
| OK (a : A)
| Raise (e : exn).
Arguments OK {A} a.
Arguments Raise {A} e.

Definition bind {A B} (r : result A) (k : A -> result B) : result B :=
  match r with
  | OK a => k a
  | Raise e => Raise e
  end.

Declare Scope result_scope.
Delimit Scope result_scope with result.
Notation "x <- r ;; k" := (bind r (fun x => k))
  (at level 100, r at next level, right associativity) : result_scope.
Open Scope result_scope.

(** ** Boolean-mask indexing

    [a[mask]] keeps the rows whose mask entry is true; numpy raises
    [IndexError] when the mask is not as long as the array. *)

Fixpoint select {A} (mask : list bool) (a : list A) : list A :=
  match mask, a with
  | m :: mask', x :: a' => if m then x :: select mask' a' else select mask' a'
  | _, _ => []
  end.

Definition bool_index {A} (mask : list bool) (a : list A) : result (list A) :=
  if Nat.eqb (length mask) (length a) then OK (select mask a) else Raise IndexError.

(** [cloud[:, axis]]: a column, negative indices counting from the end. *)
Definition column (axis : Z) (cloud : array3) : result (list float) :=
  match axis with
  | 0%Z | (-3)%Z => OK (map c0 cloud)
  | 1%Z | (-2)%Z => OK (map c1 cloud)
  | 2%Z | (-1)%Z => OK (map c2 cloud)
  | _ => Raise IndexError
  end.

(** ** The filters *)

Definition FilterNans (cloud : array3) : result array3 :=
  let mask := logical_not (any_axis1 isnan cloud) in
  bool_index mask cloud.

Definition FilterNearAndFarPoints (axis : Z) (minDist maxDist : float)
    (cloud : array3) (normals : option array3)
  : result (array3 * option array3) :=
  col <- column axis cloud ;;
  let mask := logical_and (map (fun v => fge v minDist) col)
                          (map (fun v => fle v maxDist) col) in
  cloud' <- bool_index mask cloud ;;
  match normals with
  | None => OK (cloud', None)
  | Some normals =>
      normals' <- bool_index mask normals ;;
      OK (cloud', Some normals')
  end.

(** [[(minX, maxX), (minY, maxY), (minZ, maxZ)]] *)
Definition workspace := ((float * float) * (float * float) * (float * float))%type.

Definition ws (w : workspace) (i j : nat) : float :=
  let '(wx, wy, wz) := w in
  let p := match i with 0 => wx | 1 => wy | _ => wz end in
  match j with 0 => fst p | _ => snd p end.

Definition FilterWorkspace (w : workspace) (cloud : array3) (normals : option array3)
  : result (array3 * option array3) :=
  let x := map c0 cloud in
  let y := map c1 cloud in
  let z := map c2 cloud in
  let mask :=
    logical_and
      (logical_and
         (logical_and
            (logical_and
               (logical_and (map (fun v => fge v (ws w 0 0)) x)
                            (map (fun v => fle v (ws w 0 1)) x))
               (map (fun v => fge v (ws w 1 0)) y))
            (map (fun v => fle v (ws w 1 1)) y))
         (map (fun v => fge v (ws w 2 0)) z))
      (map (fun v => fle v (ws w 2 1)) z) in
  cloud' <- bool_index mask cloud ;;
  match normals with
  | None => OK (cloud', None)
  | Some normals =>
      normals' <- bool_index mask normals ;;
      OK (cloud', Some normals')
  end.

(** Per-point readings of the three masks. *)

Definition has_no_nan (p : vec3) : bool := negb (row_any isnan p).

Definition all_finite (p : vec3) : bool :=
  negb (row_any isnan p) && negb (row_any isinf p).

Definition coord (axis : Z) (p : vec3) : option float :=
  match axis with
  | 0%Z | (-3)%Z => Some (c0 p)
  | 1%Z | (-2)%Z => Some (c1 p)
  | 2%Z | (-1)%Z => Some (c2 p)
  | _ => None
  end.

Definition in_range (lo hi v : float) : bool := fge v lo && fle v hi.

Definition near_far_keeps (axis : Z) (lo hi : float) (p : vec3) : bool :=
  match coord axis p with
  | Some v => in_range lo hi v
  | None => false
  end.

Definition workspace_keeps (w : workspace) (p : vec3) : bool :=
  in_range (ws w 0 0) (ws w 0 1) (c0 p)
  && in_range (ws w 1 0) (ws w 1 1) (c1 p)
  && in_range (ws w 2 0) (ws w 2 1) (c2 p).

Definition valid_axis (axis : Z) : bool := ((-3 <=? axis) && (axis <? 3))%Z.

(** ** Transform

    [T] is a 4 x 4 matrix.  The intermediate arrays [cloud.T], [vstack(...)]
    and [dot(T, X)] have 3 or 4 rows and one column per point; they are kept
    as records of rows.  [numpy.dot] computes entry (i, j) from row i of the
    left operand and column j of the right one; the order in which the BLAS
    routine accumulates the products is not fixed by numpy, so the two inner
    products are parameters of the model. *)

Record vec4 := V4 { h0 : float; h1 : float; h2 : float; h3 : float }.
Record mat4 := M4 { t0 : vec4; t1 : vec4; t2 : vec4; t3 : vec4 }.
Record mat3 := M3 { q0 : vec3; q1 : vec3; q2 : vec3 }.

Record rows3 := R3 { x0 : list float; x1 : list float; x2 : list float }.
Record rows4 :=
  R4 { y0 : list float; y1 : list float; y2 : list float; y3 : list float }.

(** [a.T] for an n x 3 array, and back. *)
Definition transpose_n3 (a : array3) : rows3 :=
  R3 (map c0 a) (map c1 a) (map c2 a).

Fixpoint columns3 (a b c : list float) : array3 :=
  match a, b, c with
  | x :: a', y :: b', z :: c' => V3 x y z :: columns3 a' b' c'
  | _, _, _ => []
  end.

Definition transpose_3n (X : rows3) : array3 := columns3 (x0 X) (x1 X) (x2 X).

Fixpoint columns4 (a b c d : list float) : list vec4 :=
  match a, b, c, d with
  | x :: a', y :: b', z :: c', w :: d' => V4 x y z w :: columns4 a' b' c' d'
  | _, _, _, _ => []
  end.

Definition transpose_4n (X : rows4) : list vec4 :=
  columns4 (y0 X) (y1 X) (y2 X) (y3 X).

(** [ones(n)]: float64 ones. *)
Definition f64_one : float := Eval cbv in SFone 53 1024.
Definition ones (n : nat) : list float := repeat f64_one n.

Definition vstack (X : rows3) (o : list float) : rows4 :=
  R4 (x0 X) (x1 X) (x2 X) o.

(** [X[:, 0:3]] and [T[0:3, 0:3]] *)
Definition slice_cols_0_3 (a : list vec4) : array3 :=
  map (fun v => V3 (h0 v) (h1 v) (h2 v)) a.

Definition head3 (v : vec4) : vec3 := V3 (h0 v) (h1 v) (h2 v).

Definition slice_0_3_0_3 (T : mat4) : mat3 :=
  M3 (head3 (t0 T)) (head3 (t1 T)) (head3 (t2 T)).

Section TransformOps.
Variable inner4 : vec4 -> vec4 -> float.
Variable inner3 : vec3 -> vec3 -> float.

Definition dot_4x4 (T : mat4) (X : rows4) : rows4 :=
  let cols := transpose_4n X in
  R4 (map (inner4 (t0 T)) cols) (map (inner4 (t1 T)) cols)
     (map (inner4 (t2 T)) cols) (map (inner4 (t3 T)) cols).

Definition dot_3x3 (R : mat3) (X : rows3) : rows3 :=
  let cols := transpose_3n X in
  R3 (map (inner3 (q0 R)) cols) (map (inner3 (q1 R)) cols)
     (map (inner3 (q2 R)) cols).

Definition Transform (T : mat4) (cloud : array3) (normals : option array3)
  : array3 * option array3 :=
  let X := vstack (transpose_n3 cloud) (ones (length cloud)) in
  let X := transpose_4n (dot_4x4 T X) in
  let X := slice_cols_0_3 X in
  match normals with
  | None => (X, None)
  | Some normals =>
      let T := slice_0_3_0_3 T in
      let N := transpose_3n (dot_3x3 T (transpose_n3 normals)) in
      (X, Some N)
  end.

(** What [Transform] does to one point and to one normal. *)
Definition transform_point (T : mat4) (p : vec3) : vec3 :=
  let x := V4 (c0 p) (c1 p) (c2 p) f64_one in
  V3 (inner4 (t0 T) x) (inner4 (t1 T) x) (inner4 (t2 T) x).

Definition rotate_normal (T : mat4) (v : vec3) : vec3 :=
  let R := slice_0_3_0_3 T in
  V3 (inner3 (q0 R) v) (inner3 (q1 R) v) (inner3 (q2 R) v).
End TransformOps.

(** A left-to-right accumulation in binary64, one possible choice. *)
Definition f64_mul := SFmul 53 1024.
Definition f64_add := SFadd 53 1024.

Definition inner4_seq (a b : vec4) : float :=
  f64_add (f64_add (f64_add (f64_mul (h0 a) (h0 b)) (f64_mul (h1 a) (h1 b)))
                   (f64_mul (h2 a) (h2 b)))
          (f64_mul (h3 a) (h3 b)).

Definition inner3_seq (a b : vec3) : float :=
  f64_add (f64_add (f64_mul (c0 a) (c0 b)) (f64_mul (c1 a) (c1 b)))
          (f64_mul (c2 a) (c2 b)).

(** ** Filtering stages, for compositions

    [FilterNearAndFarPoints] and [FilterWorkspace] accept normals;
    [FilterNans] takes a cloud only. *)

Inductive range_stage :=
| NearFar (axis : Z) (minDist maxDist : float)
| Workspace (w : workspace).

Inductive stage :=
| StageNans
| StageRange (r : range_stage).

Definition run_range (r : range_stage) (cloud : array3) (normals : option array3)
  : result (array3 * option array3) :=
  match r with
  | NearFar axis lo hi => FilterNearAndFarPoints axis lo hi cloud normals
  | Workspace w => FilterWorkspace w cloud normals
  end.

Definition run_stage (s : stage) (cloud : array3) : result array3 :=
  match s with
  | StageNans => FilterNans cloud
  | StageRange r => x <- run_range r cloud None ;; OK (fst x)
  end.

(** The per-point predicate of a stage; none when the axis is out of bounds. *)
Definition range_keeps (r : range_stage) : option (vec3 -> bool) :=
  match r with
  | NearFar axis lo hi =>
      if valid_axis axis then Some (near_far_keeps axis lo hi) else None
  | Workspace w => Some (workspace_keeps w)
  end.

Definition stage_keeps (s : stage) : option (vec3 -> bool) :=
  match s with
  | StageNans => Some has_no_nan
  | StageRange r => range_keeps r
  end.

(** ** The geometry engine

    The functions of [libPointCloudsPython.so] are reached through ctypes and
    are not part of this module: they are parameters.  [W] is whatever state
    the library and the file system hold.  An output pointer is modelled by
    the rows that can be read behind it. *)

Definition buffer (A : Type) := nat -> A.

Record Engine (W : Type) := {
  PclComputeNormals :
    array3 -> Z -> Z -> float -> W -> (Z * buffer vec3) * W;
  PclSavePcd : string -> array3 -> Z -> W -> Z * W;
  PclSaveOrganizedPcd : string -> array3 -> Z -> Z -> Z -> W -> Z * W;
  PclVoxelize : array3 -> Z -> float -> W -> (Z * buffer vec3 * Z) * W;
  PclRemoveStatisticalOutliers :
    array3 -> Z -> Z -> float -> W -> (Z * buffer vec3 * Z) * W;
  PclSegmentPlane : array3 -> Z -> float -> W -> (Z * buffer Z * Z) * W
}.

(** Modelled from the spec: [CopyAndFree] and [CopyAndFreeInt] are C functions
    of the shared library, absent from the Python module; the handle's contents
    are copied into a freshly owned container sized to the given count. *)
Definition CopyAndFree {A} (p : buffer A) (n : nat) : list A := map p (seq 0 n).

(** Every engine call made, oldest first. *)
Inductive call :=
| CallComputeNormals (cloud : array3) (n kNeighbors : Z) (rNeighbors : float)
| CallSavePcd (fileName : string) (cloud : array3) (n : Z)
| CallSaveOrganizedPcd (fileName : string) (cloud : array3) (n height width : Z)
| CallVoxelize (cloud : array3) (n : Z) (voxelSize : float)
| CallRemoveStatisticalOutliers (cloud : array3) (n meanK : Z) (stddevMulThresh : float)
| CallSegmentPlane (cloud : array3) (n : Z) (distanceThreshold : float).

Record state (W : Type) := St { world : W; calls : list call }.

(** Computations that call the engine and may raise. *)
Definition io (W A : Type) := state W -> result A * state W.

Definition ret {W A} (a : A) : io W A := fun s => (OK a, s).
Definition raise {W A} (e : exn) : io W A := fun s => (Raise e, s).
Definition lift {W A} (r : result A) : io W A := fun s => (r, s).

Definition iobind {W A B} (m : io W A) (k : A -> io W B) : io W B :=
  fun s =>
    match m s with
    | (OK a, s') => k a s'
    | (Raise e, s') => (Raise e, s')
    end.

Declare Scope io_scope.
Delimit Scope io_scope with io.
Notation "x <~ m ;; k" := (iobind m (fun x => k))
  (at level 100, m at next level, right associativity) : io_scope.
Notation "m ;;; k" := (iobind m (fun _ => k))
  (at level 100, right associativity) : io_scope.

Definition engine_call {W A} (c : call) (f : W -> A * W) : io W A :=
  fun s =>
    let (a, w) := f (world s) in
    (OK a, St w (calls s ++ [c])).

(** ** float32 arrays *)

Definition to_f32 (f : float) : float :=
  match f with
  | S754_finite s m e => binary_round 24 128 s m e
  | _ => f
  end.

Definition vmap (f : float -> float) (v : vec3) : vec3 :=
  V3 (f (c0 v)) (f (c1 v)) (f (c2 v)).

(** [ascontiguousarray(cloud, dtype='float32')] *)
Definition ascontiguousarray_f32 (a : array3) : array3 := map (vmap to_f32) a.

Definition f32_one : float := Eval cbv in SFone 24 128.

(** [a[mask] = v] and [a[mask, :] = vals] *)
Definition mask_fill {A} (mask : list bool) (a : list A) (v : A) : list A :=
  zip_with (fun (m : bool) x => if m then v else x) mask a.

Fixpoint mask_put {A} (mask : list bool) (a vals : list A) : list A :=
  match mask, a with
  | m :: mask', x :: a' =>
      if m then
        match vals with
        | v :: vals' => v :: mask_put mask' a' vals'
        | [] => x :: mask_put mask' a' []
        end
      else x :: mask_put mask' a' vals
  | _, _ => a
  end.

(** Broadcasting of a binary operation along the first axis. *)
Definition broadcast2 {A B C} (f : A -> B -> C) (l : list A) (r : list B)
  : result (list C) :=
  if Nat.eqb (length l) (length r) then OK (zip_with f l r)
  else
    match l, r with
    | [a], _ => OK (map (f a) r)
    | _, [b] => OK (map (fun a => f a b) l)
    | _, _ => Raise ValueError
    end.

Definition vzip (f : float -> float -> float) (a b : vec3) : vec3 :=
  V3 (f (c0 a) (c0 b)) (f (c1 a) (c1 b)) (f (c2 a) (c2 b)).

Definition vopp : vec3 -> vec3 := vmap SFopp.

(** ** Orientation arithmetic

    [prec] and [emax] give the format of [viewPoints - cloud]: binary32
    (24, 128) when the viewpoints are float32, binary64 (53, 1024) when they
    are float64. *)

Section Orientation.
Variables prec emax : Z.

Definition fadd := SFadd prec emax.
Definition fsub := SFsub prec emax.
Definition fmul := SFmul prec emax.
Definition fdiv := SFdiv prec emax.
Definition fsqrt := SFsqrt prec emax.

(** [sum(a, axis=1)] *)
Definition sum_axis1 (a : array3) : list float :=
  map (fun v => fadd (fadd (c0 v) (c1 v)) (c2 v)) a.

(** [norm(a, axis=1)], that is [sqrt(add.reduce(a * a, axis=1))] *)
Definition norm_axis1 (a : array3) : list float :=
  map fsqrt (sum_axis1 (map (fun v => vzip fmul v v) a)).

(** [pc = viewPoints - cloud; pc /= reshape(norm(pc, axis=1), (n, 1))] *)
Definition view_directions (viewPoints cloud : array3) : result array3 :=
  pc <- broadcast2 (vzip fsub) viewPoints cloud ;;
  let pcMag := norm_axis1 pc in
  OK (zip_with (fun v m => vmap (fun x => fdiv x m) v) pc pcMag).

(** [theta = sum(pc * normals, axis=1)] *)
Definition thetas (pc normals : array3) : result (list float) :=
  prod <- broadcast2 (vzip fmul) pc normals ;;
  OK (sum_axis1 prod).

(** [normals[flip, :] = -normals[flip, :]] *)
Definition negate_rows (flip : list bool) (normals : array3) : result array3 :=
  sel <- bool_index flip normals ;;
  OK (mask_put flip normals (map vopp sel)).

(** The sanitize step. *)
Definition sanitize (normals : array3) : array3 :=
  let mask := logical_or (any_axis1 isnan normals) (any_axis1 isinf normals) in
  mask_fill mask normals (V3 f32_one fzero fzero).
End Orientation.

(** ** The wrappers around the engine *)

Section Wrappers.
Variable W : Type.
Variable eng : Engine W.
Variables prec emax : Z.

Local Open Scope io_scope.
Local Open Scope Z_scope.

Definition shape0 (a : array3) : Z := Z.of_nat (length a).

Definition SavePcd (fileName : string) (cloud : array3) : io W unit :=
  let cloud := ascontiguousarray_f32 cloud in
  errorCode <~ engine_call (CallSavePcd fileName cloud (shape0 cloud))
                 (PclSavePcd eng fileName cloud (shape0 cloud)) ;;
  if errorCode <? 0 then raise (SaveFailed fileName) else ret tt.

Definition SaveOrganizedPcd (fileName : string) (cloud : array3)
    (height width : Z) : io W unit :=
  let cloud := ascontiguousarray_f32 cloud in
  errorCode <~ engine_call
                 (CallSaveOrganizedPcd fileName cloud (shape0 cloud) height width)
                 (PclSaveOrganizedPcd eng fileName cloud (shape0 cloud) height width) ;;
  if errorCode <? 0 then raise (SaveFailed fileName) else ret tt.

(** The branch of [ComputeNormals] taken when viewpoints are provided. *)
Definition orient (cloud normals viewPoints : array3) : io W array3 :=
  pc <~ lift (view_directions prec emax viewPoints cloud) ;;
  theta <~ lift (thetas prec emax pc normals) ;;
  let flip := map (fun t => flt t fzero) theta in
  if existsb isnan theta then
    SavePcd "cloud_error.pcd" cloud ;;;
    SavePcd "normals_error.pcd" normals ;;;
    raise ThetaInvalid
  else
    normals <~ lift (negate_rows flip normals) ;;
    ret normals.

Definition ComputeNormals (cloud : array3) (viewPoints : option array3)
    (kNeighbors : Z) (rNeighbors : float) : io W array3 :=
  let cloud := ascontiguousarray_f32 cloud in
  out <~ engine_call
           (CallComputeNormals cloud (shape0 cloud) kNeighbors rNeighbors)
           (PclComputeNormals eng cloud (shape0 cloud) kNeighbors rNeighbors) ;;
  let '(errorCode, pnormals) := out in
  if errorCode =? -1 then raise InvalidArgument
  else if errorCode =? -2 then raise NormalsSizeMismatch
  else
    let normals := CopyAndFree pnormals (length cloud) in
    let normals := sanitize normals in
    match viewPoints with
    | None => ret normals
    | Some viewPoints => orient cloud normals viewPoints
    end.

(** [empty((n, 3))] raises [ValueError] on a negative dimension; the copy
    then fills the [n] rows. *)
Definition copy_out {A} (p : buffer A) (n : Z) : io W (list A) :=
  if n <? 0 then raise ValueError else ret (CopyAndFree p (Z.to_nat n)).

(** The [print] of the point count in [Voxelize] writes to the standard
    output only and is left out. *)
Definition Voxelize (cloud : array3) (voxelSize : float) : io W array3 :=
  let cloud := ascontiguousarray_f32 cloud in
  out <~ engine_call (CallVoxelize cloud (shape0 cloud) voxelSize)
           (PclVoxelize eng cloud (shape0 cloud) voxelSize) ;;
  let '(_, points, nPoints) := out in
  copy_out points nPoints.

Definition RemoveStatisticalOutliers (cloud : array3) (meanK : Z)
    (stddevMulThresh : float) : io W array3 :=
  let cloud := ascontiguousarray_f32 cloud in
  out <~ engine_call
           (CallRemoveStatisticalOutliers cloud (shape0 cloud) meanK stddevMulThresh)
           (PclRemoveStatisticalOutliers eng cloud (shape0 cloud) meanK stddevMulThresh) ;;
  let '(_, points, nPoints) := out in
  copy_out points nPoints.

Definition SegmentPlane (cloud : array3) (distanceThreshold : float)
  : io W (list Z) :=
  let cloud := ascontiguousarray_f32 cloud in
  out <~ engine_call (CallSegmentPlane cloud (shape0 cloud) distanceThreshold)
           (PclSegmentPlane eng cloud (shape0 cloud) distanceThreshold) ;;
  let '(_, indices, nIndices) := out in
  copy_out indices nIndices.
End Wrappers.

(** ** Reading a stage as a filter

    What a stage with per-point predicate [keep] returns: the kept points,
    and, when normals are given, the normals at the kept positions. *)

Definition masked (keep : vec3 -> bool) (cloud : array3) (normals : option array3)
  : result (array3 * option array3) :=
  match normals with
  | None => OK (filter keep cloud, None)
  | Some normals =>
      if Nat.eqb (length cloud) (length normals)
      then OK (filter keep cloud, Some (select (map keep cloud) normals))
      else Raise IndexError
  end.

Definition on_point (keep : vec3 -> bool) (pn : vec3 * vec3) : bool := keep (fst pn).

Definition both (p q : vec3 -> bool) (v : vec3) : bool := p v && q v.

(** ** Sample data *)

Definition f32 (m e : Z) : float := binary_normalize 24 128 m e false.
Definition f64 (m e : Z) : float := binary_normalize 53 1024 m e false.

Definition origin : vec3 := V3 fzero fzero fzero.
Definition unit_x : vec3 := V3 f32_one fzero fzero.
Definition unit_z : vec3 := V3 fzero fzero f32_one.
Definition ones3 : vec3 := V3 f32_one f32_one f32_one.
Definition huge : float := Eval cbv in f32 3 126.
Definition huge3 : vec3 := V3 huge huge huge.

(** An engine that answers every call with the same status, normal and
    count, and every save with [save_status]. *)
Definition sample_engine (status save_status count : Z) (normal : vec3)
  : Engine unit :=
  {| PclComputeNormals := fun _ _ _ _ w => ((status, fun _ => normal), w);
     PclSavePcd := fun _ _ _ w => (save_status, w);
     PclSaveOrganizedPcd := fun _ _ _ _ _ w => (save_status, w);
     PclVoxelize := fun _ _ _ w => ((status, fun _ => normal, count), w);
     PclRemoveStatisticalOutliers :=
       fun _ _ _ _ w => ((status, fun _ => normal, count), w);
     PclSegmentPlane := fun _ _ _ w => ((status, fun i => Z.of_nat i, count), w) |}.

Definition start : state unit := St tt [].

Definition cloud_with_inf : array3 := [V3 pinf fzero fzero].

Definition cloud_with_nan : array3 :=
  [origin; V3 S754_nan fzero fzero; ones3; V3 fzero (f32 2 0) fzero].

Definition unit_box : workspace :=
  ((fzero, f32_one), (fzero, f32_one), (fzero, f32_one)).

Definition sample_normals : array3 := [unit_x; unit_z; unit_z; unit_x].

Definition e4 (a b c d : float) : vec4 := V4 a b c d.

Definition identity4 : mat4 :=
  M4 (e4 f64_one fzero fzero fzero) (e4 fzero f64_one fzero fzero)
     (e4 fzero fzero f64_one fzero) (e4 fzero fzero fzero f64_one).

(** The same three top rows over a bottom row that is not [0, 0, 0, 1]. *)
Definition projective4 : mat4 :=
  M4 (e4 f64_one fzero fzero fzero) (e4 fzero f64_one fzero fzero)
     (e4 fzero fzero f64_one fzero) (e4 f64_one S754_nan pinf (f64 2 0)).

Definition f32_neg_one : float := Eval cbv in binary_normalize 24 128 (-1) 0 false.

Definition three_points : array3 := [origin; ones3; unit_x].

(** What the sanitize step does to one normal. *)
Definition sanitize_row (v : vec3) : vec3 :=
  if row_any isnan v || row_any isinf v then V3 f32_one fzero fzero else v.

(** [sum(p * v)] for one row of [pc] and one normal. *)
Definition row_dot (prec emax : Z) (p v : vec3) : float :=
  fadd prec emax (fadd prec emax (fmul prec emax (c0 p) (c0 v))
                                 (fmul prec emax (c1 p) (c1 v)))
       (fmul prec emax (c2 p) (c2 v)).

(** A normal negated when its angle is negative. *)
Definition face (t : float) (v : vec3) : vec3 := if flt t fzero then vopp v else v.

(** Equality of floats up to the sign of zero. *)
Definition is_zero (f : float) : bool :=
  match f with S754_zero _ => true | _ => false end.


Definition sample_viewpoints : array3 :=
  [V3 fzero fzero f32_neg_one; V3 f32_one f32_one (f32 2 0);
   V3 f32_one fzero f32_neg_one].

(** ** LoadPcd

    The load routine of the library is a parameter of its own.  The message
    "Loading file ... failed." is the one exception of the module that the
    operations above never raise; [load_exn] adds it to the others. *)

Inductive load_exn :=
| LoadFailed (fileName : string)
| Numpy (e : exn).

Inductive load_result :=
| Loaded (cloud : array3)
| LoadRaise (e : load_exn).

Section Loading.
Variable W : Type.
Variable PclLoadPcd : string -> W -> (Z * buffer vec3 * Z) * W.

Definition LoadPcd (fileName : string) (w : W) : load_result * W :=
  let '((errorCode, points, nPoints), w') := PclLoadPcd fileName w in
  if (errorCode <? 0)%Z then (LoadRaise (LoadFailed fileName), w')
  else if (nPoints <? 0)%Z then (LoadRaise (Numpy ValueError), w')
  else (Loaded (CopyAndFree points (Z.to_nat nPoints)), w').
End Loading.

(** ** UpdatePlotExtents

    [x], [y] and [z] are lists of floats (an array is flattened to one).
    Python's [min] and [max] start from the first item and replace the
    current one when [item < current], respectively [item > current]; both
    raise [ValueError] on an empty list. *)

Definition fgt (a b : float) : bool :=
  match SFcompare a b with Some Gt => true | _ => false end.

Definition min_step (cur item : float) : float := if flt item cur then item else cur.
Definition max_step (cur item : float) : float := if fgt item cur then item else cur.

Definition py_min (l : list float) : result float :=
  match l with
  | [] => Raise ValueError
  | a :: l' => OK (fold_left min_step l' a)
  end.

Definition py_max (l : list float) : result float :=
  match l with
  | [] => Raise ValueError
  | a :: l' => OK (fold_left max_step l' a)
  end.

(** [(minX, maxX, minY, maxY, minZ, maxZ)] *)
Definition extents6 := (float * float * float * float * float * float)%type.

Definition UpdatePlotExtents (x y z : list float) (extents : option extents6)
  : result extents6 :=
  let '(x, y, z) :=
    match extents with
    | Some (e0, e1, e2, e3, e4, e5) => (x ++ [e0; e1], y ++ [e2; e3], z ++ [e4; e5])
    | None => (x, y, z)
    end in
  minx <- py_min x ;;
  maxx <- py_max x ;;
  miny <- py_min y ;;
  maxy <- py_max y ;;
  minz <- py_min z ;;
  maxz <- py_max z ;;
  OK (minx, maxx, miny, maxy, minz, maxz).

(** ** The order of the floats that are not NaN

    Each such float has a key, and the comparisons are the lexicographic
    order of the keys. *)

Definition key (f : float) : Z * Z * Z :=
  match f with
  | S754_infinity true => (-2, 0, 0)
  | S754_finite true m e => (-1, - e, Z.neg m)
  | S754_zero _ => (0, 0, 0)
  | S754_nan => (0, 0, 0)
  | S754_finite false m e => (1, e, Z.pos m)
  | S754_infinity false => (2, 0, 0)
  end%Z.

Definition klt (a b : Z * Z * Z) : Prop :=
  let '(a1, a2, a3) := a in
  let '(b1, b2, b3) := b in
  (a1 < b1 \/ (a1 = b1 /\ (a2 < b2 \/ (a2 = b2 /\ a3 < b3))))%Z.

Definition kle (a b : Z * Z * Z) : Prop :=
  let '(a1, a2, a3) := a in
  let '(b1, b2, b3) := b in
  (a1 < b1 \/ (a1 = b1 /\ (a2 < b2 \/ (a2 = b2 /\ a3 <= b3))))%Z.

Definition no_nan (l : list float) : Prop := Forall (fun v => isnan v = false) l.

(** A range with no lower and no upper bound on every axis. *)
Definition unbounded : workspace :=
  ((S754_infinity true, pinf), (S754_infinity true, pinf), (S754_infinity true, pinf)).

(** An engine for loading: a fixed status and count, rows of ones. *)
Definition sample_loader (status count : Z) (fileName : string) (w : unit)
  : (Z * buffer vec3 * Z) * unit :=
  ((status, fun _ => ones3, count), w).

(** The three axis predicates of a workspace. *)
Definition keeps0 (w : workspace) : vec3 -> bool :=
  near_far_keeps 0 (ws w 0 0) (ws w 0 1).
Definition keeps1 (w : workspace) : vec3 -> bool :=
  near_far_keeps 1 (ws w 1 0) (ws w 1 1).
Definition keeps2 (w : workspace) : vec3 -> bool :=
  near_far_keeps 2 (ws w 2 0) (ws w 2 1).

(** The unit viewing direction computed for one viewpoint and one point:
    their difference divided by its norm. *)
Definition direction (prec emax : Z) (vp p : vec3) : vec3 :=
  let d := vzip (fsub prec emax) vp p in
  let mag :=
    fsqrt prec emax
      (fadd prec emax
         (fadd prec emax (fmul prec emax (c0 d) (c0 d)) (fmul prec emax (c1 d) (c1 d)))
         (fmul prec emax (c2 d) (c2 d))) in
  vmap (fun x => fdiv prec emax x mag) d.

Definition nan3 : vec3 := V3 S754_nan S754_nan S754_nan.

(** [lo] and [hi] are items of [l] that bound every item of [l]. *)
Definition bounds_of (l : list float) (lo hi : float) : Prop :=
  In lo l /\ In hi l /\ Forall (fun v => fle lo v = true /\ fle v hi = true) l.

Definition drop_nan (l : list float) : list float :=
  filter (fun v => negb (isnan v)) l.

(** The identity rotation with a translation by (1, 2, 2). *)
Definition translate4 : mat4 :=
  M4 (e4 f64_one fzero fzero f64_one) (e4 fzero f64_one fzero (f64 2 0))
     (e4 fzero fzero f64_one (f64 2 0)) (e4 fzero fzero fzero f64_one).

(** * Lemmas on masks *)

Section Masks.
Context {A : Type}.

Lemma zip_with_map {B C D E} (f : C -> D -> E) (g : B -> C) (h : B -> D) (l : list B) :
  zip_with f (map g l) (map h l) = map (fun b => f (g b) (h b)) l.
Proof. induction l as [|b l IH]; simpl; [reflexivity | now rewrite IH]. Qed.

Lemma select_map_filter (keep : A -> bool) (l : list A) :
  select (map keep l) l = filter keep l.
Proof.
  induction l as [|a l IH]; simpl; [reflexivity|].
  destruct (keep a); now rewrite IH.
Qed.

Lemma bool_index_map (keep : A -> bool) (l : list A) :
  bool_index (map keep l) l = OK (filter keep l).
Proof.
  unfold bool_index. rewrite length_map, Nat.eqb_refl.
  now rewrite select_map_filter.
Qed.

End Masks.

(** * The filters as per-point predicates *)

Lemma fge_not_nan (v lo : float) : fge v lo = true -> isnan v = false.
Proof. unfold fge, SFleb; destruct lo, v; simpl; congruence. Qed.

Lemma fle_not_nan (v hi : float) : fle v hi = true -> isnan v = false.
Proof. unfold fle, SFleb; destruct hi, v; simpl; congruence. Qed.

Lemma in_range_not_nan (lo hi v : float) : in_range lo hi v = true -> isnan v = false.
Proof.
  unfold in_range; intros H; apply andb_true_iff in H as [H _].
  now apply fge_not_nan in H.
Qed.

Lemma column_coord (axis : Z) (cloud : array3) :
  valid_axis axis = true ->
  exists f, column axis cloud = OK (map f cloud)
            /\ forall p, coord axis p = Some (f p).
Proof.
  unfold valid_axis; intros H.
  apply andb_true_iff in H as [Hlo Hhi].
  apply Z.leb_le in Hlo; apply Z.ltb_lt in Hhi.
  assert (E : axis = (-3)%Z \/ axis = (-2)%Z \/ axis = (-1)%Z
              \/ axis = 0%Z \/ axis = 1%Z \/ axis = 2%Z) by lia.
  destruct E as [E|[E|[E|[E|[E|E]]]]]; subst axis; simpl;
    [exists c0 | exists c1 | exists c2 | exists c0 | exists c1 | exists c2];
    split; intros; reflexivity.
Qed.

Lemma column_invalid (axis : Z) (cloud : array3) :
  valid_axis axis = false -> column axis cloud = Raise IndexError.
Proof.
  unfold valid_axis; intros H.
  destruct axis as [|p|p]; [discriminate| |].
  - destruct p as [[]|[]|]; try reflexivity; discriminate.
  - destruct p as [[]|[]|]; try reflexivity; discriminate.
Qed.

Lemma bool_index_mask (keep : vec3 -> bool) (cloud : array3) (normals : option array3) :
  (cloud' <- bool_index (map keep cloud) cloud ;;
   match normals with
   | None => OK (cloud', None)
   | Some normals =>
       normals' <- bool_index (map keep cloud) normals ;;
       OK (cloud', Some normals')
   end) = masked keep cloud normals.
Proof.
  rewrite bool_index_map; simpl.
  destruct normals as [normals|]; simpl; [|reflexivity].
  unfold bool_index; rewrite length_map.
  destruct (Nat.eqb (length cloud) (length normals)); reflexivity.
Qed.

Lemma FilterNans_filter (cloud : array3) :
  FilterNans cloud = OK (filter has_no_nan cloud).
Proof.
  unfold FilterNans, logical_not, any_axis1.
  rewrite map_map. apply (bool_index_map has_no_nan).
Qed.

Lemma FilterWorkspace_masked (w : workspace) (cloud : array3) (normals : option array3) :
  FilterWorkspace w cloud normals = masked (workspace_keeps w) cloud normals.
Proof.
  unfold FilterWorkspace, logical_and.
  rewrite !map_map. rewrite !zip_with_map.
  rewrite (map_ext _ (workspace_keeps w)).
  - apply bool_index_mask.
  - intros p; unfold workspace_keeps, in_range.
    now rewrite <- !andb_assoc.
Qed.

Lemma FilterNearAndFarPoints_masked (axis : Z) (lo hi : float)
    (cloud : array3) (normals : option array3) :
  valid_axis axis = true ->
  FilterNearAndFarPoints axis lo hi cloud normals
  = masked (near_far_keeps axis lo hi) cloud normals.
Proof.
  intros Hax. unfold FilterNearAndFarPoints, logical_and.
  destruct (@column_coord axis cloud Hax) as (f & -> & Hf); simpl.
  rewrite !map_map, zip_with_map.
  rewrite (map_ext _ (near_far_keeps axis lo hi)).
  - apply bool_index_mask.
  - intros p; unfold near_far_keeps, in_range. now rewrite Hf.
Qed.

Lemma FilterNearAndFarPoints_invalid (axis : Z) (lo hi : float)
    (cloud : array3) (normals : option array3) :
  valid_axis axis = false ->
  FilterNearAndFarPoints axis lo hi cloud normals = Raise IndexError.
Proof.
  intros Hax. unfold FilterNearAndFarPoints.
  now rewrite (@column_invalid axis cloud Hax).
Qed.

Lemma run_range_masked (r : range_stage) (cloud : array3) (normals : option array3) :
  run_range r cloud normals
  = match range_keeps r with
    | Some keep => masked keep cloud normals
    | None => Raise IndexError
    end.
Proof.
  destruct r as [axis lo hi|w]; simpl.
  - destruct (valid_axis axis) eqn:Hax.
    + now apply FilterNearAndFarPoints_masked.
    + now apply FilterNearAndFarPoints_invalid.
  - apply FilterWorkspace_masked.
Qed.

Lemma run_stage_filter (s : stage) (cloud : array3) :
  run_stage s cloud
  = match stage_keeps s with
    | Some keep => OK (filter keep cloud)
    | None => Raise IndexError
    end.
Proof.
  destruct s as [|r]; simpl.
  - apply FilterNans_filter.
  - rewrite run_range_masked. now destruct (range_keeps r).
Qed.

Lemma filter_twice {A} (p q : A -> bool) (l : list A) :
  filter q (filter p l) = filter (fun a => p a && q a) l.
Proof.
  induction l as [|a l IH]; simpl; [reflexivity|].
  destruct (p a); simpl; [destruct (q a)|]; now rewrite IH.
Qed.

Lemma combine_fst_snd {A B} (l : list (A * B)) :
  combine (map fst l) (map snd l) = l.
Proof. induction l as [|[a b] l IH]; simpl; [reflexivity | now rewrite IH]. Qed.

Lemma filter_fst_combine {A B} (keep : A -> bool) (l : list A) (r : list B) :
  length l = length r ->
  filter keep l = map fst (filter (fun ab => keep (fst ab)) (combine l r)).
Proof.
  revert r; induction l as [|a l IH]; intros [|b r] H; simpl in *;
    try reflexivity; try discriminate.
  injection H as H. destruct (keep a); simpl; now rewrite <- IH.
Qed.

Lemma select_snd_combine {A B} (keep : A -> bool) (l : list A) (r : list B) :
  length l = length r ->
  select (map keep l) r = map snd (filter (fun ab => keep (fst ab)) (combine l r)).
Proof.
  revert r; induction l as [|a l IH]; intros [|b r] H; simpl in *;
    try reflexivity; try discriminate.
  injection H as H. destruct (keep a); simpl; now rewrite <- IH.
Qed.

Lemma masked_pairs (keep : vec3 -> bool) (cloud normals : array3) :
  length cloud = length normals ->
  masked keep cloud (Some normals)
  = OK (map fst (filter (on_point keep) (combine cloud normals)),
        Some (map snd (filter (on_point keep) (combine cloud normals)))).
Proof.
  intros H. unfold masked, on_point.
  rewrite H, Nat.eqb_refl.
  now rewrite <- (filter_fst_combine keep cloud normals H),
              <- (select_snd_combine keep cloud normals H).
Qed.

Lemma masked_twice (k1 k2 : vec3 -> bool) (cloud normals : array3) :
  length cloud = length normals ->
  (x <- masked k1 cloud (Some normals) ;; masked k2 (fst x) (snd x))
  = OK (filter (both k1 k2) cloud,
        Some (map snd (filter (on_point (both k1 k2)) (combine cloud normals)))).
Proof.
  intros H. rewrite (masked_pairs k1 cloud normals H); cbn [bind fst snd].
  rewrite masked_pairs by now rewrite !length_map.
  rewrite combine_fst_snd, filter_twice.
  now rewrite (filter_fst_combine (both k1 k2) cloud normals H).
Qed.

Lemma both_comm (k1 k2 : vec3 -> bool) (l : array3) :
  filter (both k1 k2) l = filter (both k2 k1) l.
Proof. apply filter_ext; intros v; unfold both; apply andb_comm. Qed.

Lemma on_point_both_comm (k1 k2 : vec3 -> bool) (l : list (vec3 * vec3)) :
  filter (on_point (both k1 k2)) l = filter (on_point (both k2 k1)) l.
Proof. apply filter_ext; intros v; unfold on_point, both; apply andb_comm. Qed.

Lemma masked_mismatch (keep : vec3 -> bool) (cloud normals : array3) :
  length cloud <> length normals ->
  masked keep cloud (Some normals) = Raise IndexError.
Proof.
  intros H. unfold masked.
  destruct (Nat.eqb (length cloud) (length normals)) eqn:E; [|reflexivity].
  now apply Nat.eqb_eq in E.
Qed.

(** * Transform, point by point *)

Section TransformFacts.
Variable inner4 : vec4 -> vec4 -> float.
Variable inner3 : vec3 -> vec3 -> float.

Lemma columns4_homogeneous (cloud : array3) :
  columns4 (map c0 cloud) (map c1 cloud) (map c2 cloud) (ones (length cloud))
  = map (fun p => V4 (c0 p) (c1 p) (c2 p) f64_one) cloud.
Proof.
  unfold ones.
  induction cloud as [|p l IH]; simpl; [reflexivity | now rewrite IH].
Qed.

Lemma columns4_map {A} (f g h k : A -> float) (l : list A) :
  columns4 (map f l) (map g l) (map h l) (map k l)
  = map (fun a => V4 (f a) (g a) (h a) (k a)) l.
Proof. induction l as [|a l IH]; simpl; [reflexivity | now rewrite IH]. Qed.

Lemma columns3_map {A} (f g h : A -> float) (l : list A) :
  columns3 (map f l) (map g l) (map h l) = map (fun a => V3 (f a) (g a) (h a)) l.
Proof. induction l as [|a l IH]; simpl; [reflexivity | now rewrite IH]. Qed.

Lemma columns3_rows (a : array3) :
  columns3 (map c0 a) (map c1 a) (map c2 a) = a.
Proof. induction a as [|[x y z] l IH]; simpl; [reflexivity | now rewrite IH]. Qed.

Lemma Transform_pointwise (T : mat4) (cloud : array3) (normals : option array3) :
  Transform inner4 inner3 T cloud normals
  = (map (transform_point inner4 T) cloud,
     option_map (map (rotate_normal inner3 T)) normals).
Proof.
  unfold Transform, dot_4x4, dot_3x3, transpose_4n, transpose_3n, transpose_n3,
    vstack, slice_cols_0_3; simpl.
  rewrite columns4_homogeneous, columns4_map, !map_map.
  destruct normals as [normals|]; simpl; [|reflexivity].
  now rewrite columns3_rows, columns3_map.
Qed.
End TransformFacts.

(** * Properties of the filters and of [Transform] *)

(** C1, as stated, fails: a point with an infinite coordinate has no NaN, so
    [FilterNans] keeps it, although not all of its coordinates are finite. *)
Lemma FilterNans_keeps_infinite_point :
  FilterNans cloud_with_inf = OK cloud_with_inf
  /\ filter all_finite cloud_with_inf = []
  /\ FilterNans cloud_with_inf <> OK (filter all_finite cloud_with_inf)
  /\ Exists (fun p => isinf (c0 p) = true) cloud_with_inf.
Proof.
  repeat split; try reflexivity.
  - discriminate.
  - constructor. reflexivity.
Qed.

(** C1, amended: for every cloud, [FilterNans] returns the subsequence of
    exactly those points none of whose 3 coordinates is NaN, with their
    coordinate values and relative order; the output contains no point with a
    NaN coordinate (points with an infinite coordinate are kept). *)
Theorem FilterNans_drops_exactly_nan_rows (cloud : array3) :
  FilterNans cloud = OK (filter has_no_nan cloud)
  /\ (forall p, In p (filter has_no_nan cloud) <->
                In p cloud /\ isnan (c0 p) = false /\ isnan (c1 p) = false
                /\ isnan (c2 p) = false).
Proof.
  split; [apply FilterNans_filter|].
  intros p. rewrite filter_In. unfold has_no_nan, row_any.
  rewrite negb_true_iff, !orb_false_iff. tauto.
Qed.

(** C10: [FilterWorkspace] returns no point with a NaN coordinate, and
    [FilterNearAndFarPoints] returns no point whose coordinate on the selected
    axis is NaN: such a coordinate fails both inclusive comparisons.  Both
    filters do return when no normals are given (and the axis is in bounds). *)
Theorem range_filters_drop_nan (cloud : array3) :
  (forall w normals cloud' normals',
      FilterWorkspace w cloud normals = OK (cloud', normals') ->
      forall p, In p cloud' -> In p cloud /\ row_any isnan p = false)
  /\ (forall axis lo hi normals cloud' normals',
      FilterNearAndFarPoints axis lo hi cloud normals = OK (cloud', normals') ->
      forall p, In p cloud' ->
        In p cloud /\ exists v, coord axis p = Some v /\ isnan v = false)
  /\ (forall w, FilterWorkspace w cloud None
                = OK (filter (workspace_keeps w) cloud, None))
  /\ (forall axis lo hi, valid_axis axis = true ->
        FilterNearAndFarPoints axis lo hi cloud None
        = OK (filter (near_far_keeps axis lo hi) cloud, None)).
Proof.
  assert (Hm : forall keep normals cloud' normals',
             masked keep cloud normals = OK (cloud', normals') ->
             cloud' = filter keep cloud).
  { intros keep [normals|] cloud' normals'; unfold masked.
    - destruct (Nat.eqb _ _); [|discriminate]. congruence.
    - congruence. }
  repeat split.
  - rewrite FilterWorkspace_masked in H. apply Hm in H; subst cloud'.
    now apply filter_In in H0.
  - rewrite FilterWorkspace_masked in H. apply Hm in H; subst cloud'.
    apply filter_In in H0 as [_ Hk]. unfold workspace_keeps in Hk.
    apply andb_true_iff in Hk as [Hk Hz]. apply andb_true_iff in Hk as [Hx Hy].
    apply in_range_not_nan in Hx, Hy, Hz.
    unfold row_any. now rewrite Hx, Hy, Hz.
  - destruct (valid_axis axis) eqn:Hax.
    + rewrite FilterNearAndFarPoints_masked in H by assumption.
      apply Hm in H; subst cloud'. now apply filter_In in H0.
    + now rewrite FilterNearAndFarPoints_invalid in H.
  - destruct (valid_axis axis) eqn:Hax.
    + rewrite FilterNearAndFarPoints_masked in H by assumption.
      apply Hm in H; subst cloud'. apply filter_In in H0 as [_ Hk].
      unfold near_far_keeps in Hk.
      destruct (coord axis p) as [v|]; [|discriminate].
      exists v; split; [reflexivity|]. now apply in_range_not_nan in Hk.
    + now rewrite FilterNearAndFarPoints_invalid in H.
  - intros w. apply FilterWorkspace_masked.
  - intros axis lo hi Hax. now apply FilterNearAndFarPoints_masked.
Qed.

Lemma range_filters_drop_nan_witness :
  In ones3 cloud_with_nan /\ row_any isnan ones3 = false.
Proof.
  apply (proj1 (range_filters_drop_nan cloud_with_nan)
           unit_box (Some sample_normals) [origin; ones3] (Some [unit_x; unit_z])
           eq_refl ones3).
  right; left; reflexivity.
Defined.

(** C8, as stated, fails when normals are supplied and [FilterNans] is one of
    the two stages: [FilterNans] takes the cloud only, so the normals go to
    the other stage.  With [FilterNans] first the range stage receives a
    shortened cloud with the full normals and raises [IndexError]; with the
    range stage first the composition returns, and after
    [FilterNearAndFarPoints] it returns 3 points with 4 normals. *)
Lemma FilterNans_order_matters_with_normals :
  (c <- FilterNans cloud_with_nan ;;
   FilterWorkspace unit_box c (Some sample_normals))
  = Raise IndexError
  /\ (x <- FilterWorkspace unit_box cloud_with_nan (Some sample_normals) ;;
      c <- FilterNans (fst x) ;; OK (c, snd x))
     = OK ([origin; ones3], Some [unit_x; unit_z])
  /\ (c <- FilterNans cloud_with_nan ;;
      FilterNearAndFarPoints 1 fzero (f32 2 0) c (Some sample_normals))
     = Raise IndexError
  /\ (x <- FilterNearAndFarPoints 1 fzero (f32 2 0) cloud_with_nan (Some sample_normals) ;;
      c <- FilterNans (fst x) ;; OK (c, snd x))
     = OK ([origin; ones3; V3 fzero (f32 2 0) fzero], Some sample_normals).
Proof. repeat split. Qed.

(** C8, amended: on a cloud alone, any two of the three filtering stages
    commute (errors included), and their composition keeps exactly the points
    that satisfy both per-point predicates; when normals are supplied, the
    same holds, with the same final normals, for the two stages that accept
    normals, [FilterNearAndFarPoints] and [FilterWorkspace], each normal
    following its point. *)
Theorem filter_stages_commute (cloud : array3) :
  (forall s1 s2,
      (c <- run_stage s1 cloud ;; run_stage s2 c)
      = (c <- run_stage s2 cloud ;; run_stage s1 c)
      /\ forall k1 k2,
          stage_keeps s1 = Some k1 -> stage_keeps s2 = Some k2 ->
          (c <- run_stage s1 cloud ;; run_stage s2 c)
          = OK (filter (both k1 k2) cloud))
  /\ (forall r1 r2 normals,
      (x <- run_range r1 cloud (Some normals) ;; run_range r2 (fst x) (snd x))
      = (x <- run_range r2 cloud (Some normals) ;; run_range r1 (fst x) (snd x))
      /\ forall k1 k2,
          range_keeps r1 = Some k1 -> range_keeps r2 = Some k2 ->
          length cloud = length normals ->
          (x <- run_range r1 cloud (Some normals) ;; run_range r2 (fst x) (snd x))
          = OK (filter (both k1 k2) cloud,
                Some (map snd (filter (on_point (both k1 k2))
                                 (combine cloud normals))))).
Proof.
  split.
  - intros s1 s2.
    assert (E : forall k1 k2 (l : array3),
               filter k2 (filter k1 l) = filter (both k1 k2) l)
      by (intros; apply filter_twice).
    split.
    + rewrite !run_stage_filter.
      destruct (stage_keeps s1) as [k1|] eqn:E1, (stage_keeps s2) as [k2|] eqn:E2;
        simpl; rewrite ?run_stage_filter, ?E1, ?E2; try reflexivity.
      now rewrite !E, both_comm.
    + intros k1 k2 E1 E2.
      rewrite run_stage_filter, E1; simpl.
      now rewrite run_stage_filter, E2, E.
  - intros r1 r2 normals.
    assert (R : forall r (c : array3) (n : option array3) k,
               range_keeps r = Some k -> run_range r c n = masked k c n)
      by (intros r c n k Hk; now rewrite run_range_masked, Hk).
    assert (N : forall r (c : array3) (n : option array3),
               range_keeps r = None -> run_range r c n = Raise IndexError)
      by (intros r c n Hk; now rewrite run_range_masked, Hk).
    split.
    + destruct (range_keeps r1) as [k1|] eqn:E1, (range_keeps r2) as [k2|] eqn:E2.
      * rewrite (R r1 _ _ _ E1), (R r2 _ _ _ E2).
        destruct (Nat.eq_dec (length cloud) (length normals)) as [H|H].
        -- transitivity (x <- masked k1 cloud (Some normals) ;; masked k2 (fst x) (snd x)).
           { destruct (masked k1 cloud (Some normals)); simpl; [now apply R | reflexivity]. }
           transitivity (x <- masked k2 cloud (Some normals) ;; masked k1 (fst x) (snd x)).
           { rewrite !masked_twice by assumption.
             now rewrite both_comm, on_point_both_comm. }
           destruct (masked k2 cloud (Some normals)); simpl;
             [symmetry; now apply R | reflexivity].
        -- now rewrite !masked_mismatch by assumption.
      * rewrite (N r2 _ _ E2), (R r1 _ _ _ E1). unfold masked.
        destruct (Nat.eqb (length cloud) (length normals)); cbn [bind fst snd];
          [now rewrite (N r2 _ _ E2) | reflexivity].
      * rewrite (N r1 _ _ E1), (R r2 _ _ _ E2). unfold masked.
        destruct (Nat.eqb (length cloud) (length normals)); cbn [bind fst snd];
          [now rewrite (N r1 _ _ E1) | reflexivity].
      * now rewrite (N r1 _ _ E1), (N r2 _ _ E2).
    + intros k1 k2 E1 E2 H.
      rewrite <- (masked_twice k1 k2 cloud normals H).
      rewrite (R r1 _ _ _ E1).
      destruct (masked k1 cloud (Some normals)); simpl; [now apply R | reflexivity].
Qed.

Lemma filter_stages_commute_witness :
  (x <- run_range (NearFar 1 fzero f32_one) cloud_with_nan (Some sample_normals) ;;
   run_range (Workspace unit_box) (fst x) (snd x))
  = OK (filter (both (near_far_keeps 1 fzero f32_one) (workspace_keeps unit_box))
          cloud_with_nan,
        Some (map snd
                (filter (on_point (both (near_far_keeps 1 fzero f32_one)
                                        (workspace_keeps unit_box)))
                   (combine cloud_with_nan sample_normals)))).
Proof.
  apply (proj2 (proj2 (filter_stages_commute cloud_with_nan)
                  (NearFar 1 fzero f32_one) (Workspace unit_box) sample_normals));
    reflexivity.
Defined.

(** C9: two 4 x 4 matrices with the same three top rows transform every cloud,
    and every normals array, to the same result: the fourth homogeneous
    coordinate is dropped without a division, so the bottom row is never
    used. *)
Theorem Transform_ignores_bottom_row
    (inner4 : vec4 -> vec4 -> float) (inner3 : vec3 -> vec3 -> float)
    (T T' : mat4) (cloud : array3) (normals : option array3) :
  t0 T = t0 T' -> t1 T = t1 T' -> t2 T = t2 T' ->
  Transform inner4 inner3 T cloud normals = Transform inner4 inner3 T' cloud normals.
Proof.
  intros H0 H1 H2. rewrite !Transform_pointwise.
  unfold transform_point, rotate_normal, slice_0_3_0_3.
  now rewrite H0, H1, H2.
Qed.

Lemma Transform_ignores_bottom_row_witness :
  Transform inner4_seq inner3_seq identity4 cloud_with_nan (Some sample_normals)
  = Transform inner4_seq inner3_seq projective4 cloud_with_nan (Some sample_normals).
Proof.
  apply (@Transform_ignores_bottom_row inner4_seq inner3_seq identity4 projective4
           cloud_with_nan (Some sample_normals)); reflexivity.
Defined.

(** C7: on a cloud and a normals array of equal length,
    [FilterNearAndFarPoints], [FilterWorkspace] and [Transform] return a cloud
    and a normals array of equal length, and the output pairs (point i,
    normal i) are the input pairs kept by the one mask, respectively the input
    pairs transformed index by index. *)
Theorem normals_stay_aligned (cloud normals : array3) :
  length cloud = length normals ->
  (forall axis lo hi, valid_axis axis = true ->
     exists cloud' normals',
       FilterNearAndFarPoints axis lo hi cloud (Some normals)
       = OK (cloud', Some normals')
       /\ length cloud' = length normals'
       /\ combine cloud' normals'
          = filter (on_point (near_far_keeps axis lo hi)) (combine cloud normals))
  /\ (forall w,
     exists cloud' normals',
       FilterWorkspace w cloud (Some normals) = OK (cloud', Some normals')
       /\ length cloud' = length normals'
       /\ combine cloud' normals'
          = filter (on_point (workspace_keeps w)) (combine cloud normals))
  /\ (forall inner4 inner3 T,
     exists X N,
       Transform inner4 inner3 T cloud (Some normals) = (X, Some N)
       /\ length X = length cloud /\ length N = length cloud
       /\ combine X N
          = map (fun pn => (transform_point inner4 T (fst pn),
                            rotate_normal inner3 T (snd pn)))
              (combine cloud normals)).
Proof.
  intros H.
  assert (M : forall keep,
             exists cloud' normals',
               masked keep cloud (Some normals) = OK (cloud', Some normals')
               /\ length cloud' = length normals'
               /\ combine cloud' normals'
                  = filter (on_point keep) (combine cloud normals)).
  { intros keep. rewrite (masked_pairs keep cloud normals H).
    eexists; eexists; split; [reflexivity|].
    split; [now rewrite !length_map | apply combine_fst_snd]. }
  split; [|split].
  - intros axis lo hi Hax. rewrite FilterNearAndFarPoints_masked by assumption.
    apply M.
  - intros w. rewrite FilterWorkspace_masked. apply M.
  - intros inner4 inner3 T. rewrite Transform_pointwise; simpl.
    eexists; eexists; split; [reflexivity|].
    rewrite !length_map. repeat split; [congruence|].
    clear. revert normals; induction cloud as [|p l IH]; intros [|n r]; simpl;
      try reflexivity.
    now rewrite IH.
Qed.

Lemma normals_stay_aligned_witness :
  exists cloud' normals',
    FilterNearAndFarPoints 2 fzero f32_one cloud_with_nan (Some sample_normals)
    = OK (cloud', Some normals')
    /\ length cloud' = length normals'
    /\ combine cloud' normals'
       = filter (on_point (near_far_keeps 2 fzero f32_one))
           (combine cloud_with_nan sample_normals).
Proof.
  exact (proj1 (@normals_stay_aligned cloud_with_nan sample_normals eq_refl)
           2%Z fzero f32_one eq_refl).
Defined.

(** * Calls to the engine *)

Lemma shape0_f32 (cloud : array3) : shape0 (ascontiguousarray_f32 cloud) = shape0 cloud.
Proof. unfold shape0, ascontiguousarray_f32. now rewrite length_map. Qed.

Lemma length_f32 (cloud : array3) : length (ascontiguousarray_f32 cloud) = length cloud.
Proof. unfold ascontiguousarray_f32. now rewrite length_map. Qed.

Section EngineFacts.
Variable W : Type.
Variable eng : Engine W.
Variables prec emax : Z.

Lemma SavePcd_run (fileName : string) (cloud : array3) (st : state W) :
  let cloud32 := ascontiguousarray_f32 cloud in
  let out := PclSavePcd eng fileName cloud32 (shape0 cloud) (world st) in
  SavePcd eng fileName cloud st
  = (if (fst out <? 0)%Z then Raise (SaveFailed fileName) else OK tt,
     St (snd out) (calls st ++ [CallSavePcd fileName cloud32 (shape0 cloud)])).
Proof.
  unfold SavePcd, iobind, engine_call; simpl. rewrite shape0_f32.
  destruct (PclSavePcd eng fileName _ _ (world st)) as [code w]; simpl.
  now destruct (code <? 0)%Z.
Qed.

Lemma copy_out_run {A} (p : buffer A) (n : Z) (st : state W) :
  (0 <= n)%Z -> copy_out p n st = (OK (CopyAndFree p (Z.to_nat n)), st).
Proof.
  intros H. unfold copy_out.
  destruct (n <? 0)%Z eqn:E; [apply Z.ltb_lt in E; lia | reflexivity].
Qed.

Lemma ComputeNormals_after_engine (cloud : array3) (viewPoints : option array3)
    (k : Z) (r : float) (st : state W) (code : Z) (buf : buffer vec3) (w : W) :
  let cloud32 := ascontiguousarray_f32 cloud in
  PclComputeNormals eng cloud32 (shape0 cloud) k r (world st) = ((code, buf), w) ->
  code <> (-1)%Z -> code <> (-2)%Z ->
  let st1 := St w (calls st ++ [CallComputeNormals cloud32 (shape0 cloud) k r]) in
  let normals := sanitize (CopyAndFree buf (length cloud)) in
  ComputeNormals eng prec emax cloud viewPoints k r st
  = match viewPoints with
    | None => (OK normals, st1)
    | Some viewPoints => orient eng prec emax cloud32 normals viewPoints st1
    end.
Proof.
  intros cloud32 E H1 H2 st1 normals.
  unfold ComputeNormals, iobind, engine_call.
  rewrite shape0_f32, length_f32. fold cloud32. rewrite E.
  destruct (code =? -1)%Z eqn:E1; [apply Z.eqb_eq in E1; contradiction|].
  destruct (code =? -2)%Z eqn:E2; [apply Z.eqb_eq in E2; contradiction|].
  now destruct viewPoints.
Qed.
End EngineFacts.

Lemma zip_with_map_l {A B C} (f : B -> A -> C) (g : A -> B) (l : list A) :
  zip_with f (map g l) l = map (fun a => f (g a) a) l.
Proof. induction l as [|a l IH]; simpl; [reflexivity | now rewrite IH]. Qed.

Lemma sanitize_rows (normals : array3) :
  sanitize normals = map sanitize_row normals.
Proof.
  unfold sanitize, logical_or, any_axis1, mask_fill.
  now rewrite zip_with_map, zip_with_map_l.
Qed.

(** * Saving and the adapters *)

(** C2, as stated, fails: with 3 points and a 2 x 2 grid the engine is called
    all the same; an engine that accepts the call makes the operation
    succeed, and one that refuses it yields the generic save exception after
    the call. *)
Lemma SaveOrganizedPcd_shape_unchecked :
  (2 * 2 <> shape0 three_points)%Z
  /\ SaveOrganizedPcd (sample_engine 0 0 0 unit_z) "grid.pcd" three_points 2 2 start
     = (OK tt, St tt [CallSaveOrganizedPcd "grid.pcd" three_points 3 2 2])
  /\ SaveOrganizedPcd (sample_engine 0 (-1) 0 unit_z) "grid.pcd" three_points 2 2 start
     = (Raise (SaveFailed "grid.pcd"),
        St tt [CallSaveOrganizedPcd "grid.pcd" three_points 3 2 2]).
Proof. repeat split. discriminate. Qed.

(** C2, amended: for every cloud, height and width, whether or not
    height * width equals the point count, [SaveOrganizedPcd] makes exactly
    one engine call, with the float32 cloud, its point count, the height and
    the width, and raises the save exception exactly when that call returns a
    negative status. *)
Theorem SaveOrganizedPcd_delegates (W : Type) (eng : Engine W)
    (fileName : string) (cloud : array3) (height width : Z) (st : state W) :
  let cloud32 := ascontiguousarray_f32 cloud in
  let out := PclSaveOrganizedPcd eng fileName cloud32 (shape0 cloud) height width
               (world st) in
  SaveOrganizedPcd eng fileName cloud height width st
  = (if (fst out <? 0)%Z then Raise (SaveFailed fileName) else OK tt,
     St (snd out)
        (calls st ++ [CallSaveOrganizedPcd fileName cloud32 (shape0 cloud) height width])).
Proof.
  unfold SaveOrganizedPcd, iobind, engine_call; simpl. rewrite shape0_f32.
  destruct (PclSaveOrganizedPcd eng fileName _ _ height width (world st)) as [code w].
  simpl. now destruct (code <? 0)%Z.
Qed.

(** C3, as stated, fails: with a voxel size, a neighbour count, a multiplier
    and a threshold that break the preconditions, each adapter still calls the
    engine, and when the engine answers with status -1 each adapter returns an
    (empty) result instead of raising. *)
Lemma adapters_ignore_parameters_and_status :
  let eng := sample_engine (-1) 0 0 unit_z in
  flt f32_neg_one fzero = true
  /\ Voxelize eng three_points f32_neg_one start
     = (OK [], St tt [CallVoxelize three_points 3 f32_neg_one])
  /\ RemoveStatisticalOutliers eng three_points 0 f32_neg_one start
     = (OK [], St tt [CallRemoveStatisticalOutliers three_points 3 0 f32_neg_one])
  /\ SegmentPlane eng three_points f32_neg_one start
     = (OK [], St tt [CallSegmentPlane three_points 3 f32_neg_one]).
Proof. repeat split. Qed.

(** C3, amended: [Voxelize], [RemoveStatisticalOutliers] and [SegmentPlane]
    validate nothing: for every parameter value each makes exactly one engine
    call with the float32 cloud, its point count and the parameters as given;
    when that call returns a non-negative status and a non-negative count, the
    operation returns that many entries copied from the engine's buffer. *)
Theorem adapters_delegate_unchecked (W : Type) (eng : Engine W)
    (cloud : array3) (st : state W) :
  let cloud32 := ascontiguousarray_f32 cloud in
  let n := shape0 cloud in
  (forall voxelSize,
      calls (snd (Voxelize eng cloud voxelSize st))
      = calls st ++ [CallVoxelize cloud32 n voxelSize]
      /\ forall status points nPoints w,
          PclVoxelize eng cloud32 n voxelSize (world st)
          = ((status, points, nPoints), w) ->
          (0 <= status)%Z -> (0 <= nPoints)%Z ->
          Voxelize eng cloud voxelSize st
          = (OK (CopyAndFree points (Z.to_nat nPoints)),
             St w (calls st ++ [CallVoxelize cloud32 n voxelSize])))
  /\ (forall meanK stddevMulThresh,
      calls (snd (RemoveStatisticalOutliers eng cloud meanK stddevMulThresh st))
      = calls st ++ [CallRemoveStatisticalOutliers cloud32 n meanK stddevMulThresh]
      /\ forall status points nPoints w,
          PclRemoveStatisticalOutliers eng cloud32 n meanK stddevMulThresh (world st)
          = ((status, points, nPoints), w) ->
          (0 <= status)%Z -> (0 <= nPoints)%Z ->
          RemoveStatisticalOutliers eng cloud meanK stddevMulThresh st
          = (OK (CopyAndFree points (Z.to_nat nPoints)),
             St w (calls st
                   ++ [CallRemoveStatisticalOutliers cloud32 n meanK stddevMulThresh])))
  /\ (forall distanceThreshold,
      calls (snd (SegmentPlane eng cloud distanceThreshold st))
      = calls st ++ [CallSegmentPlane cloud32 n distanceThreshold]
      /\ forall status indices nIndices w,
          PclSegmentPlane eng cloud32 n distanceThreshold (world st)
          = ((status, indices, nIndices), w) ->
          (0 <= status)%Z -> (0 <= nIndices)%Z ->
          SegmentPlane eng cloud distanceThreshold st
          = (OK (CopyAndFree indices (Z.to_nat nIndices)),
             St w (calls st ++ [CallSegmentPlane cloud32 n distanceThreshold]))).
Proof.
  intros cloud32 n.
  assert (C : forall A (p : buffer A) (k : Z) (s : state W),
             calls (snd (copy_out p k s)) = calls s).
  { intros A p k s. unfold copy_out. now destruct (k <? 0)%Z. }
  split; [|split].
  - intros voxelSize.
    unfold Voxelize, iobind, engine_call. rewrite shape0_f32.
    fold cloud32; fold n.
    destruct (PclVoxelize eng cloud32 n voxelSize (world st))
      as [[[status points] nPoints] w]; cbv beta iota zeta.
    split; [exact (C _ _ _ _)|].
    intros ? ? ? ? E _ Hn. injection E as <- <- <- <-.
    now apply copy_out_run.
  - intros meanK stddevMulThresh.
    unfold RemoveStatisticalOutliers, iobind, engine_call. rewrite shape0_f32.
    fold cloud32; fold n.
    destruct (PclRemoveStatisticalOutliers eng cloud32 n meanK stddevMulThresh (world st))
      as [[[status points] nPoints] w]; cbv beta iota zeta.
    split; [exact (C _ _ _ _)|].
    intros ? ? ? ? E _ Hn. injection E as <- <- <- <-.
    now apply copy_out_run.
  - intros distanceThreshold.
    unfold SegmentPlane, iobind, engine_call. rewrite shape0_f32.
    fold cloud32; fold n.
    destruct (PclSegmentPlane eng cloud32 n distanceThreshold (world st))
      as [[[status indices] nIndices] w]; cbv beta iota zeta.
    split; [exact (C _ _ _ _)|].
    intros ? ? ? ? E _ Hn. injection E as <- <- <- <-.
    now apply copy_out_run.
Qed.

Lemma adapters_delegate_unchecked_witness :
  Voxelize (sample_engine 0 0 2 unit_z) three_points f32_one start
  = (OK [unit_z; unit_z], St tt [CallVoxelize three_points 3 f32_one]).
Proof.
  apply (proj2 (proj1 (adapters_delegate_unchecked (sample_engine 0 0 2 unit_z)
                         three_points start) f32_one)
           0%Z (fun _ => unit_z) 2%Z tt); [reflexivity | lia | lia].
Defined.

(** * Normal estimation *)

(** C5: the sanitize step replaces every normal with a NaN or infinite
    component by (1, 0, 0) and leaves every other normal unchanged; when no
    viewpoints are given (and the engine reports neither of its two errors)
    the sanitized array is what [ComputeNormals] returns, one normal per
    point. *)
Theorem ComputeNormals_sanitizes (W : Type) (eng : Engine W) (prec emax : Z)
    (cloud : array3) (k : Z) (r : float) (st : state W)
    (code : Z) (buf : buffer vec3) (w : W) :
  let cloud32 := ascontiguousarray_f32 cloud in
  PclComputeNormals eng cloud32 (shape0 cloud) k r (world st) = ((code, buf), w) ->
  code <> (-1)%Z -> code <> (-2)%Z ->
  let raw := CopyAndFree buf (length cloud) in
  sanitize raw = map sanitize_row raw
  /\ (forall v, sanitize_row v
                = if row_any isnan v || row_any isinf v
                  then V3 f32_one fzero fzero else v)
  /\ length (sanitize raw) = length cloud
  /\ ComputeNormals eng prec emax cloud None k r st
     = (OK (sanitize raw),
        St w (calls st ++ [CallComputeNormals cloud32 (shape0 cloud) k r])).
Proof.
  intros cloud32 E H1 H2 raw.
  split; [apply sanitize_rows|].
  split; [reflexivity|].
  split.
  - rewrite sanitize_rows, length_map. unfold raw, CopyAndFree.
    now rewrite length_map, length_seq.
  - now rewrite (@ComputeNormals_after_engine W eng prec emax cloud None k r st
                   code buf w E H1 H2).
Qed.

Lemma ComputeNormals_sanitizes_witness :
  ComputeNormals (sample_engine 0 0 0 (V3 S754_nan fzero pinf)) 24 128
    three_points None 5 f32_one start
  = (OK [unit_x; unit_x; unit_x],
     St tt [CallComputeNormals three_points 3 5 f32_one]).
Proof.
  apply (proj2 (proj2 (proj2
           (@ComputeNormals_sanitizes unit (sample_engine 0 0 0 (V3 S754_nan fzero pinf))
              24 128 three_points 5 f32_one start 0 (fun _ => V3 S754_nan fzero pinf) tt
              eq_refl ltac:(discriminate) ltac:(discriminate))))).
Defined.

(** * Rounding is symmetric

    Negating both operands negates a product and a sum, up to the sign of a
    zero sum: round-to-nearest-even treats the two signs alike. *)

Section FloatSymmetry.
Variables prec emax : Z.












End FloatSymmetry.

(** * The orientation step *)

Lemma length_zip_with {A B C} (f : A -> B -> C) (l : list A) (r : list B) :
  length l = length r -> length (zip_with f l r) = length l.
Proof.
  revert r; induction l as [|a l IH]; intros [|b r] H; simpl in *;
    try reflexivity; try discriminate.
  injection H as H. now rewrite IH.
Qed.

Lemma broadcast2_aligned {A B C} (f : A -> B -> C) (l : list A) (r : list B) :
  length l = length r -> broadcast2 f l r = OK (zip_with f l r).
Proof. intros H. unfold broadcast2. now rewrite H, Nat.eqb_refl. Qed.

Lemma zip_with_map_first {A B C D} (f : B -> C -> D) (g : A -> B)
    (l : list A) (r : list C) :
  zip_with f (map g l) r = zip_with (fun a c => f (g a) c) l r.
Proof.
  revert r; induction l as [|a l IH]; intros [|c r]; simpl; try reflexivity.
  now rewrite IH.
Qed.

Lemma mask_put_select {A} (f : A -> A) (mask : list bool) (a : list A) :
  length mask = length a ->
  mask_put mask a (map f (select mask a))
  = zip_with (fun (m : bool) x => if m then f x else x) mask a.
Proof.
  revert a; induction mask as [|m mask IH]; intros [|x a] H; simpl in *;
    try reflexivity; try discriminate.
  injection H as H. destruct m; simpl; now rewrite IH.
Qed.

Section OrientFacts.
Variable W : Type.
Variable eng : Engine W.
Variables prec emax : Z.

Lemma view_directions_aligned (viewPoints cloud : array3) :
  length viewPoints = length cloud ->
  exists pc, view_directions prec emax viewPoints cloud = OK pc
             /\ length pc = length cloud.
Proof.
  intros H. unfold view_directions.
  rewrite (broadcast2_aligned _ _ _ H); simpl.
  eexists; split; [reflexivity|].
  rewrite length_zip_with.
  - now rewrite length_zip_with.
  - unfold norm_axis1, sum_axis1. now rewrite !length_map.
Qed.

Lemma thetas_rows (pc normals : array3) :
  length pc = length normals ->
  thetas prec emax pc normals = OK (zip_with (row_dot prec emax) pc normals).
Proof.
  intros H. unfold thetas. rewrite (broadcast2_aligned _ _ _ H); simpl.
  f_equal. clear H. unfold sum_axis1.
  revert normals; induction pc as [|p pc IH]; intros [|v normals]; simpl;
    try reflexivity.
  now rewrite IH.
Qed.

Lemma negate_rows_faces (theta : list float) (normals : array3) :
  length theta = length normals ->
  negate_rows (map (fun t => flt t fzero) theta) normals
  = OK (zip_with face theta normals).
Proof.
  intros H. unfold negate_rows, bool_index.
  rewrite length_map, H, Nat.eqb_refl; simpl.
  rewrite mask_put_select by now rewrite length_map.
  now rewrite zip_with_map_first.
Qed.


Lemma orient_faces (cloud normals viewPoints pc : array3) (theta : list float)
    (st : state W) :
  view_directions prec emax viewPoints cloud = OK pc ->
  thetas prec emax pc normals = OK theta ->
  length theta = length normals ->
  existsb isnan theta = false ->
  orient eng prec emax cloud normals viewPoints st
  = (OK (zip_with face theta normals), st).
Proof.
  intros Hpc Hth Hlen Hnan.
  unfold orient, iobind, lift. rewrite Hpc, Hth, Hnan.
  now rewrite (negate_rows_faces _ _ Hlen).
Qed.

Lemma orient_dumps (cloud normals viewPoints pc : array3) (theta : list float)
    (st : state W) :
  view_directions prec emax viewPoints cloud = OK pc ->
  thetas prec emax pc normals = OK theta ->
  existsb isnan theta = true ->
  let cloud32 := ascontiguousarray_f32 cloud in
  let normals32 := ascontiguousarray_f32 normals in
  let s1 := PclSavePcd eng "cloud_error.pcd" cloud32 (shape0 cloud) (world st) in
  let s2 := PclSavePcd eng "normals_error.pcd" normals32 (shape0 normals) (snd s1) in
  let call1 := CallSavePcd "cloud_error.pcd" cloud32 (shape0 cloud) in
  let call2 := CallSavePcd "normals_error.pcd" normals32 (shape0 normals) in
  orient eng prec emax cloud normals viewPoints st
  = if (fst s1 <? 0)%Z
    then (Raise (SaveFailed "cloud_error.pcd"), St (snd s1) (calls st ++ [call1]))
    else if (fst s2 <? 0)%Z
    then (Raise (SaveFailed "normals_error.pcd"),
          St (snd s2) ((calls st ++ [call1]) ++ [call2]))
    else (Raise ThetaInvalid, St (snd s2) ((calls st ++ [call1]) ++ [call2])).
Proof.
  intros Hpc Hth Hnan cloud32 normals32 s1 s2 call1 call2.
  unfold orient, iobind, lift. rewrite Hpc, Hth, Hnan.
  rewrite SavePcd_run. fold cloud32; fold s1; fold call1.
  destruct (fst s1 <? 0)%Z; [reflexivity|].
  rewrite SavePcd_run. cbn [world calls].
  fold normals32; fold s2; fold call2.
  now destruct (fst s2 <? 0)%Z.
Qed.
End OrientFacts.

(** C4, as stated, fails.  With the viewpoint on the point the angle is NaN;
    when the engine refuses to save, the caller receives the save error of
    the first dump, not the degeneracy error, and the second dump is not
    attempted.  With a huge (finite) normal the angle overflows to +infinity,
    which is not NaN: nothing is dumped or raised and the normal is
    returned. *)
Lemma ComputeNormals_dump_failure_masks :
  (pc <- view_directions 24 128 [origin] [origin] ;; thetas 24 128 pc [unit_z])
  = OK [S754_nan]
  /\ ComputeNormals (sample_engine 0 (-1) 0 unit_z) 24 128 [origin] (Some [origin])
       5 f32_one start
     = (Raise (SaveFailed "cloud_error.pcd"),
        St tt [CallComputeNormals [origin] 1 5 f32_one;
               CallSavePcd "cloud_error.pcd" [origin] 1])
  /\ (pc <- view_directions 24 128 [ones3] [origin] ;; thetas 24 128 pc [huge3])
     = OK [pinf]
  /\ ComputeNormals (sample_engine 0 0 0 huge3) 24 128 [origin] (Some [ones3])
       5 f32_one start
     = (OK [huge3], St tt [CallComputeNormals [origin] 1 5 f32_one]).
Proof. repeat split; vm_compute; reflexivity. Qed.

(** C4, amended: in [ComputeNormals] with viewpoints (one per point, the
    engine reporting neither of its two errors), when some angle theta_i is
    NaN the point array and then the normal array are saved with [SavePcd];
    the degeneracy error is raised when both saves succeed, and when a save
    fails the error of that save is what the caller receives (a second save
    is not attempted after a failed first one).  When no angle is NaN nothing
    is saved and no error is raised. *)
Theorem ComputeNormals_nan_theta (W : Type) (eng : Engine W) (prec emax : Z)
    (cloud viewPoints : array3) (k : Z) (r : float) (st : state W)
    (code : Z) (buf : buffer vec3) (w : W) :
  let cloud32 := ascontiguousarray_f32 cloud in
  PclComputeNormals eng cloud32 (shape0 cloud) k r (world st) = ((code, buf), w) ->
  code <> (-1)%Z -> code <> (-2)%Z ->
  length viewPoints = length cloud ->
  let normals := sanitize (CopyAndFree buf (length cloud)) in
  let log := calls st ++ [CallComputeNormals cloud32 (shape0 cloud) k r] in
  exists pc theta,
    view_directions prec emax viewPoints cloud32 = OK pc
    /\ thetas prec emax pc normals = OK theta
    /\ (existsb isnan theta = true ->
        let dump1 := ascontiguousarray_f32 cloud32 in
        let dump2 := ascontiguousarray_f32 normals in
        let s1 := PclSavePcd eng "cloud_error.pcd" dump1 (shape0 cloud32) w in
        let s2 := PclSavePcd eng "normals_error.pcd" dump2 (shape0 normals) (snd s1) in
        let call1 := CallSavePcd "cloud_error.pcd" dump1 (shape0 cloud32) in
        let call2 := CallSavePcd "normals_error.pcd" dump2 (shape0 normals) in
        ComputeNormals eng prec emax cloud (Some viewPoints) k r st
        = if (fst s1 <? 0)%Z
          then (Raise (SaveFailed "cloud_error.pcd"), St (snd s1) (log ++ [call1]))
          else if (fst s2 <? 0)%Z
          then (Raise (SaveFailed "normals_error.pcd"),
                St (snd s2) ((log ++ [call1]) ++ [call2]))
          else (Raise ThetaInvalid, St (snd s2) ((log ++ [call1]) ++ [call2])))
    /\ (existsb isnan theta = false ->
        exists normals',
          ComputeNormals eng prec emax cloud (Some viewPoints) k r st
          = (OK normals', St w log)).
Proof.
  intros cloud32 E H1 H2 Hlen normals log.
  assert (Hn : length normals = length cloud).
  { unfold normals, CopyAndFree.
    now rewrite sanitize_rows, !length_map, length_seq. }
  destruct (@view_directions_aligned prec emax viewPoints cloud32) as (pc & Hpc & Lpc).
  { unfold cloud32. now rewrite length_f32. }
  assert (Lpn : length pc = length normals).
  { rewrite Lpc, Hn. apply length_f32. }
  exists pc, (zip_with (row_dot prec emax) pc normals).
  split; [exact Hpc|]. split; [now apply thetas_rows|].
  rewrite (@ComputeNormals_after_engine W eng prec emax cloud (Some viewPoints) k r st
             code buf w E H1 H2).
  fold cloud32; fold normals; fold log.
  split.
  - intros Hnan.
    exact (@orient_dumps W eng prec emax cloud32 normals viewPoints pc
             (zip_with (row_dot prec emax) pc normals) (St w log)
             Hpc (thetas_rows prec emax pc normals Lpn) Hnan).
  - intros Hnan. eexists.
    apply (@orient_faces W eng prec emax cloud32 normals viewPoints pc
             (zip_with (row_dot prec emax) pc normals) (St w log));
      [exact Hpc | now apply thetas_rows | | exact Hnan].
    now rewrite length_zip_with.
Qed.

Lemma ComputeNormals_nan_theta_witness :
  ComputeNormals (sample_engine 0 0 0 unit_z) 24 128 [origin] (Some [origin])
    5 f32_one start
  = (Raise ThetaInvalid,
     St tt [CallComputeNormals [origin] 1 5 f32_one;
            CallSavePcd "cloud_error.pcd" [origin] 1;
            CallSavePcd "normals_error.pcd" [unit_z] 1]).
Proof.
  destruct (@ComputeNormals_nan_theta unit (sample_engine 0 0 0 unit_z) 24 128
              [origin] [origin] 5%Z f32_one start 0%Z (fun _ => unit_z) tt
              eq_refl ltac:(discriminate) ltac:(discriminate) eq_refl)
    as (pc & theta & Hpc & Hth & Hdump & _).
  vm_compute in Hpc. injection Hpc as <-.
  vm_compute in Hth. injection Hth as <-.
  exact (Hdump eq_refl).
Defined.

(** * More on the filters *)

Lemma masked_ext (k k' : vec3 -> bool) (cloud : array3) (normals : option array3) :
  (forall v, k v = k' v) -> masked k cloud normals = masked k' cloud normals.
Proof.
  intros H. unfold masked.
  rewrite (filter_ext k k' H cloud), (map_ext k k' H cloud). reflexivity.
Qed.

Lemma masked_then (k1 k2 : vec3 -> bool) (cloud : array3) (normals : option array3) :
  (x <- masked k1 cloud normals ;; masked k2 (fst x) (snd x))
  = masked (both k1 k2) cloud normals.
Proof.
  destruct normals as [normals|].
  - destruct (Nat.eq_dec (length cloud) (length normals)) as [H|H].
    + rewrite (masked_twice k1 k2 cloud normals H).
      rewrite (masked_pairs (both k1 k2) cloud normals H). unfold on_point.
      now rewrite <- (filter_fst_combine (both k1 k2) cloud normals H).
    + now rewrite !masked_mismatch by assumption.
  - simpl. now rewrite filter_twice.
Qed.

Lemma both_same (k : vec3 -> bool) (v : vec3) : both k k v = k v.
Proof. unfold both. apply andb_diag. Qed.

Lemma bind_masked_range (r : range_stage) (k : vec3 -> bool)
    (m : result (array3 * option array3)) :
  range_keeps r = Some k ->
  (x <- m ;; run_range r (fst x) (snd x)) = (x <- m ;; masked k (fst x) (snd x)).
Proof.
  intros H. destruct m as [x|e]; simpl; [|reflexivity].
  now rewrite run_range_masked, H.
Qed.

(** X1: every filtering stage is idempotent, errors included: running
    [FilterNans], [FilterNearAndFarPoints] or [FilterWorkspace] on its own
    output changes nothing, for a cloud alone and for a cloud with normals. *)
Theorem filter_stages_idempotent (cloud : array3) :
  (forall s, (c <- run_stage s cloud ;; run_stage s c) = run_stage s cloud)
  /\ (forall r normals,
        (x <- run_range r cloud normals ;; run_range r (fst x) (snd x))
        = run_range r cloud normals).
Proof.
  split.
  - intros s. rewrite !run_stage_filter.
    destruct (stage_keeps s) as [k|] eqn:E; simpl; [|reflexivity].
    rewrite run_stage_filter, E, filter_twice. f_equal.
    apply filter_ext. intros v. apply andb_diag.
  - intros r normals.
    destruct (range_keeps r) as [k|] eqn:E.
    + rewrite (bind_masked_range r _ E).
      rewrite run_range_masked, E, masked_then.
      apply masked_ext, both_same.
    + now rewrite run_range_masked, E.
Qed.

(** X2: [FilterWorkspace] is [FilterNearAndFarPoints] applied on axis 0, then
    on axis 1, then on axis 2 with the bounds of the workspace, for a cloud
    alone and for a cloud with normals (a normals array of another length
    makes both raise [IndexError]). *)
Theorem FilterWorkspace_is_three_axis_filters (w : workspace) (cloud : array3)
    (normals : option array3) :
  (x <- FilterNearAndFarPoints 0 (ws w 0 0) (ws w 0 1) cloud normals ;;
   y <- FilterNearAndFarPoints 1 (ws w 1 0) (ws w 1 1) (fst x) (snd x) ;;
   FilterNearAndFarPoints 2 (ws w 2 0) (ws w 2 1) (fst y) (snd y))
  = FilterWorkspace w cloud normals.
Proof.
  rewrite FilterWorkspace_masked.
  rewrite (@FilterNearAndFarPoints_masked 0 _ _ cloud normals eq_refl).
  transitivity
    (y <- (x <- masked (keeps0 w) cloud normals ;; masked (keeps1 w) (fst x) (snd x)) ;;
     masked (keeps2 w) (fst y) (snd y)).
  - unfold keeps0, keeps1, keeps2.
    destruct (masked (near_far_keeps 0 (ws w 0 0) (ws w 0 1)) cloud normals)
      as [x|e]; simpl; [|reflexivity].
    rewrite (@FilterNearAndFarPoints_masked 1 _ _ (fst x) (snd x) eq_refl).
    destruct (masked (near_far_keeps 1 (ws w 1 0) (ws w 1 1)) (fst x) (snd x))
      as [y|e]; simpl; [|reflexivity].
    apply (@FilterNearAndFarPoints_masked 2 _ _ (fst y) (snd y) eq_refl).
  - rewrite !masked_then. apply masked_ext. intros v. reflexivity.
Qed.

(** * Comparisons as an order on keys *)

Ltac by_keys :=
  unfold fle, fge, flt, fgt, SFleb, SFltb, SFcompare, key, klt, kle, isnan;
  repeat match goal with
         | |- context [Z.compare ?a ?b] => destruct (Z.compare_spec a b)
         | |- context [Pos.compare_cont Eq ?a ?b] =>
             change (Pos.compare_cont Eq a b) with (Pos.compare a b);
             destruct (Pos.compare_spec a b)
         end;
  simpl; split; intros; repeat split; try discriminate; try congruence; try lia.

Lemma fle_key (a b : float) :
  fle a b = true <-> isnan a = false /\ isnan b = false /\ kle (key a) (key b).
Proof. destruct a as [[]|[]| |[] m e], b as [[]|[]| |[] m' e']; by_keys. Qed.

Lemma flt_key (a b : float) :
  flt a b = true <-> isnan a = false /\ isnan b = false /\ klt (key a) (key b).
Proof. destruct a as [[]|[]| |[] m e], b as [[]|[]| |[] m' e']; by_keys. Qed.

Lemma fgt_key (a b : float) :
  fgt a b = true <-> isnan a = false /\ isnan b = false /\ klt (key b) (key a).
Proof. destruct a as [[]|[]| |[] m e], b as [[]|[]| |[] m' e']; by_keys. Qed.

Ltac open_keys :=
  repeat match goal with
         | H : fle _ _ = true |- _ => apply fle_key in H; destruct H as (? & ? & H)
         | H : fge _ _ = true |- _ => apply fle_key in H; destruct H as (? & ? & H)
         | H : flt _ _ = true |- _ => apply flt_key in H; destruct H as (? & ? & H)
         | H : fgt _ _ = true |- _ => apply fgt_key in H; destruct H as (? & ? & H)
         end.

Ltac solve_keys :=
  unfold kle, klt in *;
  repeat match goal with
         | |- context [key ?f] =>
             let a := fresh "a" in let b := fresh "b" in let c := fresh "c" in
             destruct (key f) as [[a b] c]
         | H : context [key ?f] |- _ =>
             let a := fresh "a" in let b := fresh "b" in let c := fresh "c" in
             destruct (key f) as [[a b] c]
         end;
  lia.

Lemma fle_trans (a b c : float) :
  fle a b = true -> fle b c = true -> fle a c = true.
Proof.
  intros H1 H2. open_keys. apply fle_key. repeat split; try assumption. solve_keys.
Qed.

Lemma fle_refl (a : float) : isnan a = false -> fle a a = true.
Proof. intros H. apply fle_key. repeat split; try assumption. solve_keys. Qed.

Lemma flt_fle (a b : float) : flt a b = true -> fle a b = true.
Proof.
  intros H. open_keys. apply fle_key. repeat split; try assumption. solve_keys.
Qed.

Lemma fgt_fle (a b : float) : fgt a b = true -> fle b a = true.
Proof.
  intros H. open_keys. apply fle_key. repeat split; try assumption. solve_keys.
Qed.

Lemma not_flt_fle (a b : float) :
  isnan a = false -> isnan b = false -> flt a b = false -> fle b a = true.
Proof.
  intros Ha Hb H. apply fle_key. repeat split; try assumption.
  assert (N : ~ klt (key a) (key b)).
  { intros K. assert (flt a b = true) by (apply flt_key; auto). congruence. }
  solve_keys.
Qed.

Lemma not_fgt_fle (a b : float) :
  isnan a = false -> isnan b = false -> fgt a b = false -> fle a b = true.
Proof.
  intros Ha Hb H. apply fle_key. repeat split; try assumption.
  assert (N : ~ klt (key b) (key a)).
  { intros K. assert (fgt a b = true) by (apply fgt_key; auto). congruence. }
  solve_keys.
Qed.

Lemma fle_not_flt (a b : float) : fle a b = true -> flt b a = false.
Proof.
  intros H. destruct (flt b a) eqn:E; [|reflexivity].
  exfalso. open_keys. solve_keys.
Qed.

Lemma fle_not_fgt (a b : float) : fle a b = true -> fgt a b = false.
Proof.
  intros H. destruct (fgt a b) eqn:E; [|reflexivity].
  exfalso. open_keys. solve_keys.
Qed.

(** X3: the axis of [FilterNearAndFarPoints] is a column index of numpy: an
    axis outside -3 .. 2 raises [IndexError] for every cloud, the empty one
    included, and a negative axis selects the same column as that axis
    plus 3. *)
Theorem FilterNearAndFarPoints_axis (axis : Z) (lo hi : float)
    (cloud : array3) (normals : option array3) :
  (valid_axis axis = false ->
   FilterNearAndFarPoints axis lo hi cloud normals = Raise IndexError)
  /\ ((-3 <= axis < 0)%Z ->
      FilterNearAndFarPoints axis lo hi cloud normals
      = FilterNearAndFarPoints (axis + 3) lo hi cloud normals).
Proof.
  split.
  - apply FilterNearAndFarPoints_invalid.
  - intros H.
    assert (E : axis = (-3)%Z \/ axis = (-2)%Z \/ axis = (-1)%Z) by lia.
    destruct E as [E|[E|E]]; subst axis; reflexivity.
Qed.

Lemma FilterNearAndFarPoints_axis_witness :
  FilterNearAndFarPoints 3 fzero f32_one [] None = Raise IndexError
  /\ FilterNearAndFarPoints (-1) fzero f32_one cloud_with_nan (Some sample_normals)
     = FilterNearAndFarPoints (-1 + 3) fzero f32_one cloud_with_nan (Some sample_normals).
Proof.
  split.
  - apply (proj1 (FilterNearAndFarPoints_axis 3 fzero f32_one [] None)). reflexivity.
  - apply (proj2 (FilterNearAndFarPoints_axis (-1) fzero f32_one cloud_with_nan
                    (Some sample_normals))). lia.
Defined.

(** X4: a normals array whose length differs from the cloud's makes both range
    filters raise [IndexError], although the same call without normals
    filters the cloud. *)
Theorem range_filters_reject_misaligned_normals (cloud normals : array3) :
  length cloud <> length normals ->
  (forall w,
      FilterWorkspace w cloud (Some normals) = Raise IndexError
      /\ FilterWorkspace w cloud None = OK (filter (workspace_keeps w) cloud, None))
  /\ (forall axis lo hi, valid_axis axis = true ->
      FilterNearAndFarPoints axis lo hi cloud (Some normals) = Raise IndexError
      /\ FilterNearAndFarPoints axis lo hi cloud None
         = OK (filter (near_far_keeps axis lo hi) cloud, None)).
Proof.
  intros H. split.
  - intros w. rewrite !FilterWorkspace_masked. split; [|reflexivity].
    now apply masked_mismatch.
  - intros axis lo hi Hax. rewrite !FilterNearAndFarPoints_masked by assumption.
    split; [|reflexivity]. now apply masked_mismatch.
Qed.

Lemma range_filters_reject_misaligned_normals_witness :
  FilterWorkspace unit_box cloud_with_nan (Some [unit_x]) = Raise IndexError
  /\ FilterWorkspace unit_box cloud_with_nan None
     = OK (filter (workspace_keeps unit_box) cloud_with_nan, None).
Proof.
  apply (proj1 (@range_filters_reject_misaligned_normals cloud_with_nan [unit_x]
                  ltac:(discriminate)) unit_box).
Defined.

Lemma in_range_unbounded (v : float) :
  in_range (S754_infinity true) pinf v = negb (isnan v).
Proof. now destruct v as [s|[]| |[] m e]. Qed.

(** X5: a workspace without bounds (-inf, +inf on the three axes) is the NaN
    filter: [FilterWorkspace] then returns exactly what [FilterNans] returns,
    points with infinite coordinates included. *)
Theorem unbounded_workspace_is_FilterNans (cloud : array3) :
  FilterWorkspace unbounded cloud None = (c <- FilterNans cloud ;; OK (c, None))
  /\ forall normals,
      FilterWorkspace unbounded cloud normals = masked has_no_nan cloud normals.
Proof.
  assert (E : forall v, workspace_keeps unbounded v = has_no_nan v).
  { intros v. unfold workspace_keeps, has_no_nan, row_any, unbounded, ws; simpl.
    rewrite !in_range_unbounded.
    now destruct (isnan (c0 v)), (isnan (c1 v)), (isnan (c2 v)). }
  split.
  - rewrite FilterWorkspace_masked, FilterNans_filter; simpl.
    now rewrite (filter_ext _ _ E).
  - intros normals. rewrite FilterWorkspace_masked. now apply masked_ext.
Qed.

Lemma in_range_empty (lo hi v : float) :
  isnan lo = true \/ isnan hi = true \/ flt hi lo = true ->
  in_range lo hi v = false.
Proof.
  intros H. unfold in_range.
  destruct (fge v lo) eqn:E1; [|reflexivity].
  destruct (fle v hi) eqn:E2; [|reflexivity].
  exfalso.
  destruct H as [H|[H|H]]; open_keys; try congruence. solve_keys.
Qed.

Lemma filter_none {A} (k : A -> bool) (l : list A) :
  (forall a, k a = false) -> filter k l = [].
Proof.
  intros H. induction l as [|a l IH]; simpl; [reflexivity|]. now rewrite H.
Qed.

Lemma select_none {A B} (k : A -> bool) (l : list A) (r : list B) :
  (forall a, k a = false) -> select (map k l) r = [].
Proof.
  intros H. revert r; induction l as [|a l IH]; intros [|b r]; simpl;
    try reflexivity. rewrite H. apply IH.
Qed.

(** X6: let [lo] and [hi] be the bounds as numpy compares them, that is
    after a Python-float bound has been converted to the dtype of the cloud
    (two different bounds may convert to the same value).  When one of them
    is NaN, or [hi] is below [lo], no point is kept: the result is the empty
    cloud (and the empty normals), not an error. *)
Theorem FilterNearAndFarPoints_empty_range (axis : Z) (lo hi : float)
    (cloud : array3) :
  valid_axis axis = true ->
  isnan lo = true \/ isnan hi = true \/ flt hi lo = true ->
  FilterNearAndFarPoints axis lo hi cloud None = OK ([], None)
  /\ forall normals, length cloud = length normals ->
       FilterNearAndFarPoints axis lo hi cloud (Some normals) = OK ([], Some []).
Proof.
  intros Hax Hb.
  assert (K : forall v, near_far_keeps axis lo hi v = false).
  { intros v. unfold near_far_keeps.
    destruct (coord axis v); [now apply in_range_empty | reflexivity]. }
  split.
  - rewrite FilterNearAndFarPoints_masked by assumption. simpl.
    now rewrite (filter_none _ cloud K).
  - intros normals H. rewrite FilterNearAndFarPoints_masked by assumption.
    unfold masked. rewrite H, Nat.eqb_refl.
    now rewrite (filter_none _ cloud K), (select_none _ cloud normals K).
Qed.

Lemma FilterNearAndFarPoints_empty_range_witness :
  FilterNearAndFarPoints 0 f32_one fzero cloud_with_nan None = OK ([], None)
  /\ forall normals, length cloud_with_nan = length normals ->
       FilterNearAndFarPoints 0 f32_one fzero cloud_with_nan (Some normals)
       = OK ([], Some []).
Proof.
  apply (@FilterNearAndFarPoints_empty_range 0 f32_one fzero cloud_with_nan eq_refl).
  right; right; reflexivity.
Defined.

(** * The conversion to float32 *)

Lemma shr_1_nonneg (mrs : shr_record) :
  (0 <= shr_m mrs)%Z -> (0 <= shr_m (shr_1 mrs))%Z.
Proof. destruct mrs as [m r s]; destruct m as [|[p|p|]|[p|p|]]; simpl; lia. Qed.

Lemma iter_pos_keeps {A} (P : A -> Prop) (f : A -> A) :
  (forall x, P x -> P (f x)) -> forall p x, P x -> P (iter_pos f p x).
Proof. intros H. induction p as [p IH|p IH|]; simpl; auto. Qed.

Lemma shr_fexp_nonneg (prec emax m e : Z) (l : location) :
  (0 <= m)%Z -> (0 <= shr_m (fst (shr_fexp prec emax m e l)))%Z.
Proof.
  intros H. unfold shr_fexp, shr.
  assert (H0 : (0 <= shr_m (shr_record_of_loc m l))%Z) by (now destruct l as [|[]]).
  destruct (fexp prec emax (Zdigits2 m + e) - e)%Z; simpl; try assumption.
  now apply (iter_pos_keeps (fun r => 0 <= shr_m r)%Z shr_1 shr_1_nonneg).
Qed.

Lemma round_nearest_even_nonneg (m : Z) (l : location) :
  (0 <= m)%Z -> (0 <= round_nearest_even m l)%Z.
Proof.
  intros H. destruct l as [|[]]; simpl; try lia. destruct (Z.even m); lia.
Qed.

Lemma binary_round_aux_not_nan (prec emax : Z) (s : bool) (m e : Z) (l : location) :
  (0 <= m)%Z -> isnan (binary_round_aux prec emax s m e l) = false.
Proof.
  intros H. unfold binary_round_aux.
  pose proof (shr_fexp_nonneg prec emax e l H) as H1.
  destruct (shr_fexp prec emax m e l) as [mrs' e']; simpl in H1.
  pose proof (shr_fexp_nonneg prec emax e' loc_Exact
                (round_nearest_even_nonneg (loc_of_shr_record mrs') H1)) as H2.
  destruct (shr_fexp prec emax _ e' loc_Exact) as [mrs'' e'']; simpl in H2.
  destruct (shr_m mrs'') as [|p|p]; try reflexivity; [|lia].
  now destruct (Z.leb e'' (emax - prec)).
Qed.

Lemma to_f32_isnan (x : float) : isnan (to_f32 x) = isnan x.
Proof.
  destruct x as [s|s| |s m e]; try reflexivity.
  unfold to_f32, binary_round.
  destruct (shl_align m e _) as [mz ez].
  apply binary_round_aux_not_nan. lia.
Qed.

Lemma filter_map_swap {A B} (k : B -> bool) (g : A -> B) (l : list A) :
  filter k (map g l) = map g (filter (fun a => k (g a)) l).
Proof.
  induction l as [|a l IH]; simpl; [reflexivity|].
  destruct (k (g a)); simpl; now rewrite IH.
Qed.

(** X7: the conversion to float32 maps NaN to NaN and nothing else to NaN
    (an overflow gives an infinity), so [FilterNans] commutes with it:
    filtering the converted cloud is converting the filtered cloud. *)
Theorem FilterNans_commutes_with_float32 (cloud : array3) :
  (forall x, isnan (to_f32 x) = isnan x)
  /\ FilterNans (ascontiguousarray_f32 cloud)
     = (c <- FilterNans cloud ;; OK (ascontiguousarray_f32 c)).
Proof.
  split; [apply to_f32_isnan|].
  rewrite !FilterNans_filter; simpl. f_equal.
  unfold ascontiguousarray_f32. rewrite filter_map_swap. f_equal.
  apply filter_ext. intros v.
  unfold has_no_nan, row_any, vmap; simpl. now rewrite !to_f32_isnan.
Qed.


(** * More on [ComputeNormals] *)

(** X8: an engine status of -1 makes [ComputeNormals] raise the
    invalid-argument error and a status of -2 the size-mismatch error, with or
    without viewpoints, after the single engine call and before anything is
    copied, oriented or saved. *)
Theorem ComputeNormals_engine_errors (W : Type) (eng : Engine W) (prec emax : Z)
    (cloud : array3) (viewPoints : option array3) (k : Z) (r : float)
    (st : state W) (code : Z) (buf : buffer vec3) (w : W) :
  let cloud32 := ascontiguousarray_f32 cloud in
  let st1 := St w (calls st ++ [CallComputeNormals cloud32 (shape0 cloud) k r]) in
  PclComputeNormals eng cloud32 (shape0 cloud) k r (world st) = ((code, buf), w) ->
  (code = (-1)%Z ->
   ComputeNormals eng prec emax cloud viewPoints k r st = (Raise InvalidArgument, st1))
  /\ (code = (-2)%Z ->
      ComputeNormals eng prec emax cloud viewPoints k r st
      = (Raise NormalsSizeMismatch, st1)).
Proof.
  intros cloud32 st1 E.
  split; intros ->; unfold ComputeNormals, iobind, engine_call;
    rewrite shape0_f32; fold cloud32; rewrite E; reflexivity.
Qed.

Lemma ComputeNormals_engine_errors_witness :
  ComputeNormals (sample_engine (-2) 0 0 unit_z) 24 128 three_points
    (Some sample_viewpoints) 5 f32_one start
  = (Raise NormalsSizeMismatch, St tt [CallComputeNormals three_points 3 5 f32_one]).
Proof.
  apply (proj2 (@ComputeNormals_engine_errors unit (sample_engine (-2) 0 0 unit_z)
                  24 128 three_points (Some sample_viewpoints) 5%Z f32_one start
                  (-2)%Z (fun _ => unit_z) tt eq_refl)).
  reflexivity.
Defined.

Lemma sanitize_row_finite (v : vec3) : all_finite (sanitize_row v) = true.
Proof.
  unfold sanitize_row, all_finite.
  destruct (row_any isnan v) eqn:E1; [reflexivity|].
  destruct (row_any isinf v) eqn:E2; [reflexivity|].
  simpl. now rewrite E1, E2.
Qed.

Lemma vopp_finite (v : vec3) : all_finite (vopp v) = all_finite v.
Proof.
  unfold all_finite, row_any, vopp, vmap; simpl.
  now destruct (c0 v) as [?|?| |? ? ?], (c1 v) as [?|?| |? ? ?], (c2 v) as [?|?| |? ? ?].
Qed.

Lemma Forall_zip_with_r {A B} (P : B -> Prop) (f : A -> B -> B)
    (l : list A) (r : list B) :
  (forall a b, P b -> P (f a b)) -> Forall P r -> Forall P (zip_with f l r).
Proof.
  intros Hf. revert r; induction l as [|a l IH]; intros [|b r] H; simpl;
    try constructor.
  - apply Hf. now inversion H.
  - apply IH. now inversion H.
Qed.

Lemma sanitize_finite (raw : array3) :
  Forall (fun v => all_finite v = true) (sanitize raw).
Proof.
  rewrite sanitize_rows. apply Forall_forall. intros v Hv.
  apply in_map_iff in Hv as (u & <- & _). apply sanitize_row_finite.
Qed.

Lemma sanitize_length (buf : buffer vec3) (n : nat) :
  length (sanitize (CopyAndFree buf n)) = n.
Proof.
  rewrite sanitize_rows. unfold CopyAndFree. now rewrite !length_map, length_seq.
Qed.

(** X9: whenever [ComputeNormals] returns, with or without viewpoints, it
    returns one normal per point and every component of every normal is
    finite (neither NaN nor infinite). *)
Theorem ComputeNormals_returns_finite_normals (W : Type) (eng : Engine W)
    (prec emax : Z) (cloud : array3) (viewPoints : option array3) (k : Z)
    (r : float) (st st' : state W) (normals' : array3) :
  ComputeNormals eng prec emax cloud viewPoints k r st = (OK normals', st') ->
  length normals' = length cloud
  /\ Forall (fun v => all_finite v = true) normals'.
Proof.
  unfold ComputeNormals, iobind, engine_call.
  rewrite length_f32.
  destruct (PclComputeNormals eng _ _ k r (world st)) as [[code buf] w].
  destruct (code =? -1)%Z; [discriminate|].
  destruct (code =? -2)%Z; [discriminate|].
  pose proof (sanitize_finite (CopyAndFree buf (length cloud))) as HF.
  pose proof (sanitize_length buf (length cloud)) as HL.
  set (normals := sanitize (CopyAndFree buf (length cloud))) in *.
  destruct viewPoints as [viewPoints|].
  - unfold orient, iobind, lift.
    destruct (view_directions prec emax viewPoints _) as [pc|e]; [|discriminate].
    destruct (thetas prec emax pc normals) as [theta|e]; [|discriminate].
    destruct (existsb isnan theta).
    + rewrite SavePcd_run.
      destruct (fst _ <? 0)%Z; [discriminate|].
      rewrite SavePcd_run.
      destruct (fst _ <? 0)%Z; discriminate.
    + unfold negate_rows, bool_index.
      destruct (Nat.eqb _ (length normals)) eqn:El; [|discriminate].
      apply Nat.eqb_eq in El. simpl. intros H; injection H as <- _.
      rewrite mask_put_select by exact El.
      split.
      * rewrite length_zip_with by exact El. congruence.
      * apply Forall_zip_with_r; [|exact HF].
        intros [] b Hb; [now rewrite vopp_finite | exact Hb].
  - unfold ret. intros H; injection H as <- _. now split.
Qed.

Lemma ComputeNormals_returns_finite_normals_witness :
  length [vopp unit_z; unit_z; vopp unit_z] = length three_points
  /\ Forall (fun v => all_finite v = true) [vopp unit_z; unit_z; vopp unit_z].
Proof.
  apply (@ComputeNormals_returns_finite_normals unit (sample_engine 0 0 0 unit_z)
           24 128 three_points (Some sample_viewpoints) 5%Z f32_one start
           (St tt [CallComputeNormals three_points 3 5 f32_one])).
  vm_compute. reflexivity.
Defined.


Lemma zip_with_repeat_l {A B C} (f : A -> B -> C) (a : A) (r : list B) :
  zip_with f (repeat a (length r)) r = map (f a) r.
Proof. induction r as [|b r IH]; simpl; [reflexivity | now rewrite IH]. Qed.

Lemma broadcast2_single {A B C} (f : A -> B -> C) (a : A) (r : list B) :
  broadcast2 f [a] r = broadcast2 f (repeat a (length r)) r.
Proof.
  unfold broadcast2 at 2. rewrite repeat_length, Nat.eqb_refl, zip_with_repeat_l.
  unfold broadcast2.
  destruct (Nat.eqb (length [a]) (length r)) eqn:E; [|reflexivity].
  apply Nat.eqb_eq in E. destruct r as [|b [|b' r]]; try discriminate. reflexivity.
Qed.

(** X10: one viewpoint for the whole cloud is broadcast: [ComputeNormals] with
    a single viewpoint row does exactly what it does with that viewpoint
    repeated once per point, for every cloud (the empty one included) and
    every engine answer. *)
Theorem ComputeNormals_single_viewpoint (W : Type) (eng : Engine W)
    (prec emax : Z) (cloud : array3) (vp : vec3) (k : Z) (r : float)
    (st : state W) :
  ComputeNormals eng prec emax cloud (Some [vp]) k r st
  = ComputeNormals eng prec emax cloud (Some (repeat vp (length cloud))) k r st.
Proof.
  unfold ComputeNormals, iobind.
  destruct (engine_call _ _ st) as [[[code buf]|e] s1]; [|reflexivity].
  destruct (code =? -1)%Z; [reflexivity|].
  destruct (code =? -2)%Z; [reflexivity|].
  unfold orient, view_directions.
  rewrite broadcast2_single. now rewrite !length_f32.
Qed.

Lemma broadcast2_mismatch {A B C} (f : A -> B -> C) (l : list A) (r : list B) :
  length l <> length r -> length l <> 1 -> length r <> 1 ->
  broadcast2 f l r = Raise ValueError.
Proof.
  intros H Hl Hr. unfold broadcast2.
  destruct (Nat.eqb (length l) (length r)) eqn:E;
    [apply Nat.eqb_eq in E; contradiction|].
  destruct l as [|a [|a' l]], r as [|b [|b' r]]; simpl in *;
    try reflexivity; contradiction.
Qed.

(** X12: when the number of viewpoints is neither the number of points nor 1
    (and the cloud is not a single point) the subtraction cannot be
    broadcast: [ComputeNormals] raises [ValueError], after the engine call
    and without saving anything. *)
Theorem ComputeNormals_viewpoint_count_mismatch (W : Type) (eng : Engine W)
    (prec emax : Z) (cloud viewPoints : array3) (k : Z) (r : float)
    (st : state W) (code : Z) (buf : buffer vec3) (w : W) :
  let cloud32 := ascontiguousarray_f32 cloud in
  PclComputeNormals eng cloud32 (shape0 cloud) k r (world st) = ((code, buf), w) ->
  code <> (-1)%Z -> code <> (-2)%Z ->
  length viewPoints <> length cloud -> length viewPoints <> 1 -> length cloud <> 1 ->
  ComputeNormals eng prec emax cloud (Some viewPoints) k r st
  = (Raise ValueError,
     St w (calls st ++ [CallComputeNormals cloud32 (shape0 cloud) k r])).
Proof.
  intros cloud32 E H1 H2 Hn Hv Hc.
  rewrite (@ComputeNormals_after_engine W eng prec emax cloud (Some viewPoints) k r st
             code buf w E H1 H2).
  unfold orient, iobind, lift, view_directions.
  rewrite broadcast2_mismatch; try assumption; try reflexivity.
  - now rewrite length_f32.
  - now rewrite length_f32.
Qed.

Lemma ComputeNormals_viewpoint_count_mismatch_witness :
  ComputeNormals (sample_engine 0 0 0 unit_z) 24 128 three_points
    (Some [origin; ones3]) 5 f32_one start
  = (Raise ValueError, St tt [CallComputeNormals three_points 3 5 f32_one]).
Proof.
  apply (@ComputeNormals_viewpoint_count_mismatch unit (sample_engine 0 0 0 unit_z)
           24 128 three_points [origin; ones3] 5%Z f32_one start 0%Z
           (fun _ => unit_z) tt eq_refl);
    simpl; discriminate.
Defined.

(** ** A viewpoint on its point *)

Lemma zip_with_map_r {A B C} (f : A -> B -> C) (g : A -> B) (l : list A) :
  zip_with f l (map g l) = map (fun a => f a (g a)) l.
Proof. induction l as [|a l IH]; simpl; [reflexivity | now rewrite IH]. Qed.

Lemma map_zip_with {A B C D} (g : C -> D) (f : A -> B -> C) (l : list A) (r : list B) :
  map g (zip_with f l r) = zip_with (fun a b => g (f a b)) l r.
Proof.
  revert r; induction l as [|a l IH]; intros [|b r]; simpl; try reflexivity.
  now rewrite IH.
Qed.

Lemma nth_error_zip_with {A B C} (f : A -> B -> C) (l : list A) (r : list B)
    (i : nat) (a : A) (b : B) :
  nth_error l i = Some a -> nth_error r i = Some b ->
  nth_error (zip_with f l r) i = Some (f a b).
Proof.
  revert r i; induction l as [|x l IH]; intros [|y r] [|i] Ha Hb; simpl in *;
    try discriminate.
  - congruence.
  - now apply IH.
Qed.

Section DirectionFacts.
Variables prec emax : Z.

Lemma view_directions_rows (viewPoints cloud : array3) :
  length viewPoints = length cloud ->
  view_directions prec emax viewPoints cloud
  = OK (zip_with (direction prec emax) viewPoints cloud).
Proof.
  intros H. unfold view_directions.
  rewrite (broadcast2_aligned _ _ _ H); simpl. f_equal.
  unfold norm_axis1, sum_axis1. rewrite !map_map, zip_with_map_r.
  now rewrite map_zip_with.
Qed.

Lemma fsub_self (x : float) :
  isnan x = false -> isinf x = false -> is_zero (fsub prec emax x x) = true.
Proof.
  intros Hn Hi. destruct x as [[]|s| |s m e]; try discriminate; try reflexivity.
  unfold fsub, SFsub. now rewrite Z.sub_diag.
Qed.

Lemma direction_of_zero (a b c : float) :
  is_zero a = true -> is_zero b = true -> is_zero c = true ->
  vmap (fun x => fdiv prec emax x
                   (fsqrt prec emax
                      (fadd prec emax
                         (fadd prec emax (fmul prec emax a a) (fmul prec emax b b))
                         (fmul prec emax c c)))) (V3 a b c)
  = nan3.
Proof.
  destruct a as [[]| | |]; try discriminate;
    destruct b as [[]| | |]; try discriminate;
    destruct c as [[]| | |]; try discriminate; reflexivity.
Qed.

Lemma direction_self (p : vec3) :
  all_finite p = true -> direction prec emax p p = nan3.
Proof.
  intros H. unfold all_finite, row_any in H.
  apply andb_true_iff in H as [Hn Hi].
  apply negb_true_iff in Hn, Hi.
  apply orb_false_iff in Hn as [Hn Hn2]. apply orb_false_iff in Hn as [Hn0 Hn1].
  apply orb_false_iff in Hi as [Hi Hi2]. apply orb_false_iff in Hi as [Hi0 Hi1].
  unfold direction, vzip; cbn [c0 c1 c2].
  apply direction_of_zero; now apply fsub_self.
Qed.

Lemma row_dot_nan3 (v : vec3) : row_dot prec emax nan3 v = S754_nan.
Proof. reflexivity. Qed.
End DirectionFacts.

(** X11: a viewpoint that coincides with its (finite) point makes the angle
    NaN, whatever the normal: [ComputeNormals] then never returns normals; it
    raises the degeneracy error or the error of a failed dump. *)
Theorem ComputeNormals_viewpoint_on_point (W : Type) (eng : Engine W)
    (prec emax : Z) (cloud viewPoints : array3) (k : Z) (r : float)
    (st : state W) (code : Z) (buf : buffer vec3) (w : W) (i : nat) (p : vec3) :
  let cloud32 := ascontiguousarray_f32 cloud in
  PclComputeNormals eng cloud32 (shape0 cloud) k r (world st) = ((code, buf), w) ->
  code <> (-1)%Z -> code <> (-2)%Z ->
  length viewPoints = length cloud ->
  nth_error cloud32 i = Some p -> nth_error viewPoints i = Some p ->
  all_finite p = true ->
  exists e st',
    ComputeNormals eng prec emax cloud (Some viewPoints) k r st = (Raise e, st')
    /\ (e = ThetaInvalid \/ e = SaveFailed "cloud_error.pcd"
        \/ e = SaveFailed "normals_error.pcd").
Proof.
  intros cloud32 E H1 H2 Hlen Hc Hv Hp.
  rewrite (@ComputeNormals_after_engine W eng prec emax cloud (Some viewPoints) k r st
             code buf w E H1 H2).
  fold cloud32.
  set (normals := sanitize (CopyAndFree buf (length cloud))).
  assert (Hl32 : length viewPoints = length cloud32)
    by (unfold cloud32; now rewrite length_f32).
  assert (Hn : length normals = length cloud) by apply sanitize_length.
  set (pc := zip_with (direction prec emax) viewPoints cloud32).
  assert (Lpc : length pc = length normals).
  { unfold pc. rewrite length_zip_with by exact Hl32. congruence. }
  destruct (nth_error normals i) as [n|] eqn:Hni.
  2:{ apply nth_error_None in Hni.
      assert (i < length cloud32) by (apply nth_error_Some; congruence).
      unfold cloud32 in *. rewrite length_f32 in *. lia. }
  assert (Hnan : existsb isnan (zip_with (row_dot prec emax) pc normals) = true).
  { apply existsb_exists. exists S754_nan. split; [|reflexivity].
    apply nth_error_In with (n := i).
    rewrite (nth_error_zip_with (row_dot prec emax) pc normals i
               (a := direction prec emax p p) (b := n)).
    - now rewrite direction_self.
    - unfold pc. now apply nth_error_zip_with.
    - exact Hni. }
  rewrite (@orient_dumps W eng prec emax cloud32 normals viewPoints pc _ _
             (view_directions_rows prec emax viewPoints cloud32 Hl32)
             (thetas_rows prec emax pc normals Lpc) Hnan).
  destruct (fst _ <? 0)%Z; [eauto 6|].
  destruct (fst _ <? 0)%Z; eauto 6.
Qed.

Lemma ComputeNormals_viewpoint_on_point_witness :
  exists e st',
    ComputeNormals (sample_engine 0 0 0 unit_z) 24 128 three_points
      (Some [V3 fzero fzero f32_neg_one; ones3; unit_z]) 5 f32_one start
    = (Raise e, st')
    /\ (e = ThetaInvalid \/ e = SaveFailed "cloud_error.pcd"
        \/ e = SaveFailed "normals_error.pcd").
Proof.
  apply (@ComputeNormals_viewpoint_on_point unit (sample_engine 0 0 0 unit_z)
           24 128 three_points [V3 fzero fzero f32_neg_one; ones3; unit_z]
           5%Z f32_one start 0%Z (fun _ => unit_z) tt 1 ones3);
    try reflexivity; discriminate.
Defined.


(** * More on [Transform] and [LoadPcd] *)

(** X13: normals are only rotated: two matrices with the same upper-left
    3 x 3 block give the same normals, whatever their translation column and
    bottom row, and the transformed points do not depend on whether normals
    are passed. *)
Theorem Transform_normals_ignore_translation
    (inner4 : vec4 -> vec4 -> float) (inner3 : vec3 -> vec3 -> float)
    (T T' : mat4) (cloud : array3) (normals : option array3) :
  slice_0_3_0_3 T = slice_0_3_0_3 T' ->
  snd (Transform inner4 inner3 T cloud normals)
  = snd (Transform inner4 inner3 T' cloud normals)
  /\ fst (Transform inner4 inner3 T cloud normals)
     = fst (Transform inner4 inner3 T cloud None).
Proof.
  intros H. rewrite !Transform_pointwise; simpl. split; [|reflexivity].
  destruct normals as [normals|]; simpl; [|reflexivity].
  f_equal. apply map_ext. intros v. unfold rotate_normal. now rewrite H.
Qed.

Lemma Transform_normals_ignore_translation_witness :
  snd (Transform inner4_seq inner3_seq identity4 cloud_with_nan (Some sample_normals))
  = snd (Transform inner4_seq inner3_seq translate4 cloud_with_nan (Some sample_normals))
  /\ fst (Transform inner4_seq inner3_seq identity4 cloud_with_nan (Some sample_normals))
     = fst (Transform inner4_seq inner3_seq identity4 cloud_with_nan None).
Proof.
  apply (@Transform_normals_ignore_translation inner4_seq inner3_seq identity4
           translate4 cloud_with_nan (Some sample_normals)).
  reflexivity.
Defined.

Lemma CopyAndFree_nth {A} (p : buffer A) (n i : nat) :
  i < n -> nth_error (CopyAndFree p n) i = Some (p i).
Proof.
  intros H. unfold CopyAndFree.
  rewrite nth_error_map, nth_error_nth' with (d := 0) by now rewrite length_seq.
  simpl. now rewrite seq_nth.
Qed.

(** X14: [LoadPcd] tests the engine status before it allocates: a negative
    status raises the load error whatever count was reported; otherwise a
    negative count raises [ValueError], and a count n >= 0 returns exactly
    the first n rows of the engine's buffer. *)
Theorem LoadPcd_outcomes (W : Type)
    (PclLoadPcd : string -> W -> (Z * buffer vec3 * Z) * W)
    (fileName : string) (w w' : W) (code n : Z) (points : buffer vec3) :
  PclLoadPcd fileName w = ((code, points, n), w') ->
  ((code < 0)%Z -> LoadPcd PclLoadPcd fileName w = (LoadRaise (LoadFailed fileName), w'))
  /\ ((0 <= code)%Z -> (n < 0)%Z ->
      LoadPcd PclLoadPcd fileName w = (LoadRaise (Numpy ValueError), w'))
  /\ ((0 <= code)%Z -> (0 <= n)%Z ->
      exists cloud,
        LoadPcd PclLoadPcd fileName w = (Loaded cloud, w')
        /\ length cloud = Z.to_nat n
        /\ forall i, i < Z.to_nat n -> nth_error cloud i = Some (points i)).
Proof.
  intros E. unfold LoadPcd. rewrite E.
  split; [|split].
  - intros H. apply Z.ltb_lt in H. now rewrite H.
  - intros Hc Hn.
    destruct (code <? 0)%Z eqn:E1; [apply Z.ltb_lt in E1; lia|].
    apply Z.ltb_lt in Hn. now rewrite Hn.
  - intros Hc Hn.
    destruct (code <? 0)%Z eqn:E1; [apply Z.ltb_lt in E1; lia|].
    destruct (n <? 0)%Z eqn:E2; [apply Z.ltb_lt in E2; lia|].
    eexists; split; [reflexivity|]. split.
    + unfold CopyAndFree. now rewrite length_map, length_seq.
    + intros i Hi. now apply CopyAndFree_nth.
Qed.

Lemma LoadPcd_outcomes_witness :
  LoadPcd (sample_loader (-1) (-5)) "scan.pcd" tt
  = (LoadRaise (LoadFailed "scan.pcd"), tt).
Proof.
  apply (proj1 (@LoadPcd_outcomes unit (sample_loader (-1) (-5)) "scan.pcd" tt tt
                  (-1)%Z (-5)%Z (fun _ => ones3) eq_refl)).
  lia.
Defined.


(** * Plot extents *)

Lemma flt_nan_l (x : float) : flt S754_nan x = false.
Proof. reflexivity. Qed.

Lemma flt_nan_r (x : float) : flt x S754_nan = false.
Proof. now destruct x. Qed.

Lemma fgt_nan_l (x : float) : fgt S754_nan x = false.
Proof. reflexivity. Qed.

Lemma fgt_nan_r (x : float) : fgt x S754_nan = false.
Proof. now destruct x. Qed.

Lemma isnan_eq (x : float) : isnan x = true -> x = S754_nan.
Proof. now destruct x. Qed.

(** The running minimum: an item of the list, NaN when the first item is NaN,
    and otherwise below the first item and every item that is not NaN. *)
Lemma fold_min_spec (l : list float) (a : float) :
  let r := fold_left min_step l a in
  In r (a :: l)
  /\ (isnan a = true -> r = a)
  /\ (isnan a = false ->
      isnan r = false /\ fle r a = true
      /\ Forall (fun v => isnan v = false -> fle r v = true) l).
Proof.
  revert a; induction l as [|x l IH]; intros a; simpl.
  - split; [now left|]. split; [reflexivity|].
    intros H. split; [exact H|]. split; [now apply fle_refl | constructor].
  - destruct (IH (min_step a x)) as (Hin & Hnan & Hle).
    remember (fold_left min_step l (min_step a x)) as r eqn:Er. clear Er IH.
    split; [|split].
    + destruct Hin as [Hin|Hin]; [|now right; right].
      unfold min_step in Hin. destruct (flt x a); [right; left | left]; congruence.
    + intros Ha. apply isnan_eq in Ha. subst a.
      unfold min_step in *. rewrite flt_nan_r in *. now apply Hnan.
    + intros Ha.
      assert (Hs : isnan (min_step a x) = false
                   /\ fle (min_step a x) a = true
                   /\ (isnan x = false -> fle (min_step a x) x = true)).
      { unfold min_step. destruct (flt x a) eqn:E.
        - assert (Hx : isnan x = false) by (now apply flt_key in E).
          split; [exact Hx|]. split; [now apply flt_fle|].
          intros _. now apply fle_refl.
        - split; [exact Ha|]. split; [now apply fle_refl|].
          intros Hx. now apply not_flt_fle. }
      destruct Hs as (Hs1 & Hs2 & Hs3).
      destruct (Hle Hs1) as (Hr & Hra & Hall).
      split; [exact Hr|]. split; [now apply fle_trans with (b := min_step a x)|].
      constructor; [|exact Hall].
      intros Hx. apply fle_trans with (b := min_step a x); auto.
Qed.

Lemma fold_max_spec (l : list float) (a : float) :
  let r := fold_left max_step l a in
  In r (a :: l)
  /\ (isnan a = true -> r = a)
  /\ (isnan a = false ->
      isnan r = false /\ fle a r = true
      /\ Forall (fun v => isnan v = false -> fle v r = true) l).
Proof.
  revert a; induction l as [|x l IH]; intros a; simpl.
  - split; [now left|]. split; [reflexivity|].
    intros H. split; [exact H|]. split; [now apply fle_refl | constructor].
  - destruct (IH (max_step a x)) as (Hin & Hnan & Hle).
    remember (fold_left max_step l (max_step a x)) as r eqn:Er. clear Er IH.
    split; [|split].
    + destruct Hin as [Hin|Hin]; [|now right; right].
      unfold max_step in Hin. destruct (fgt x a); [right; left | left]; congruence.
    + intros Ha. apply isnan_eq in Ha. subst a.
      unfold max_step in *. rewrite fgt_nan_r in *. now apply Hnan.
    + intros Ha.
      assert (Hs : isnan (max_step a x) = false
                   /\ fle a (max_step a x) = true
                   /\ (isnan x = false -> fle x (max_step a x) = true)).
      { unfold max_step. destruct (fgt x a) eqn:E.
        - assert (Hx : isnan x = false) by (now apply fgt_key in E).
          split; [exact Hx|]. split; [now apply fgt_fle|].
          intros _. now apply fle_refl.
        - split; [exact Ha|]. split; [now apply fle_refl|].
          intros Hx. now apply not_fgt_fle. }
      destruct Hs as (Hs1 & Hs2 & Hs3).
      destruct (Hle Hs1) as (Hr & Hra & Hall).
      split; [exact Hr|]. split; [now apply fle_trans with (b := max_step a x)|].
      constructor; [|exact Hall].
      intros Hx. apply fle_trans with (b := max_step a x); auto.
Qed.

Lemma py_min_max_bounds (l : list float) :
  l <> [] -> no_nan l ->
  exists lo hi, py_min l = OK lo /\ py_max l = OK hi /\ bounds_of l lo hi.
Proof.
  intros Hne Hn. destruct l as [|a l]; [contradiction|].
  inversion Hn as [|? ? Ha Hl]; subst.
  destruct (fold_min_spec l a) as (Imin & _ & Hmin).
  destruct (fold_max_spec l a) as (Imax & _ & Hmax).
  destruct (Hmin Ha) as (_ & Hmin_a & Hmin_l).
  destruct (Hmax Ha) as (_ & Hmax_a & Hmax_l).
  exists (fold_left min_step l a), (fold_left max_step l a).
  split; [reflexivity|]. split; [reflexivity|].
  split; [exact Imin|]. split; [exact Imax|].
  constructor; [now split|].
  rewrite Forall_forall in *. intros v Hv. split.
  - apply Hmin_l; auto.
  - apply Hmax_l; auto.
Qed.

Lemma no_nan_app (l r : list float) : no_nan l -> no_nan r -> no_nan (l ++ r).
Proof. intros Hl Hr. apply Forall_app. now split. Qed.

Lemma app_pair_nonempty (l : list float) (a b : float) : l ++ [a; b] <> [].
Proof. now destruct l. Qed.

(** X15: on coordinates without NaN, [UpdatePlotExtents] returns, for each
    axis, two of the given values that bound all of them; when previous
    extents are given they are among the values, so the new extents contain
    the old ones. *)
Theorem UpdatePlotExtents_bounds (x y z : list float) :
  no_nan x -> no_nan y -> no_nan z ->
  (x <> [] -> y <> [] -> z <> [] ->
   exists a b c d e f,
     UpdatePlotExtents x y z None = OK (a, b, c, d, e, f)
     /\ bounds_of x a b /\ bounds_of y c d /\ bounds_of z e f)
  /\ (forall e0 e1 e2 e3 e4 e5,
      no_nan [e0; e1; e2; e3; e4; e5] ->
      exists a b c d e f,
        UpdatePlotExtents x y z (Some (e0, e1, e2, e3, e4, e5)) = OK (a, b, c, d, e, f)
        /\ bounds_of (x ++ [e0; e1]) a b
        /\ bounds_of (y ++ [e2; e3]) c d
        /\ bounds_of (z ++ [e4; e5]) e f).
Proof.
  intros Hx Hy Hz.
  assert (G : forall x y z, x <> [] -> y <> [] -> z <> [] ->
              no_nan x -> no_nan y -> no_nan z ->
              exists a b c d e f,
                (minx <- py_min x ;; maxx <- py_max x ;;
                 miny <- py_min y ;; maxy <- py_max y ;;
                 minz <- py_min z ;; maxz <- py_max z ;;
                 OK (minx, maxx, miny, maxy, minz, maxz)) = OK (a, b, c, d, e, f)
                /\ bounds_of x a b /\ bounds_of y c d /\ bounds_of z e f).
  { clear. intros x y z Ex Ey Ez Hx Hy Hz.
    destruct (py_min_max_bounds Ex Hx) as (a & b & -> & -> & Hab).
    destruct (py_min_max_bounds Ey Hy) as (c & d & -> & -> & Hcd).
    destruct (py_min_max_bounds Ez Hz) as (e & f & -> & -> & Hef).
    exists a, b, c, d, e, f. simpl. auto. }
  split.
  - intros Ex Ey Ez. now apply G.
  - intros e0 e1 e2 e3 e4 e5 He.
    unfold no_nan in He.
    repeat match goal with H : Forall _ (_ :: _) |- _ => inversion H; clear H; subst end.
    apply G; try apply app_pair_nonempty;
      apply no_nan_app; try assumption; repeat constructor; assumption.
Qed.

Lemma UpdatePlotExtents_bounds_witness :
  exists a b c d e f,
    UpdatePlotExtents [f32_one; fzero] [fzero] [f32_neg_one; f32_one] None
    = OK (a, b, c, d, e, f)
    /\ bounds_of [f32_one; fzero] a b /\ bounds_of [fzero] c d
    /\ bounds_of [f32_neg_one; f32_one] e f.
Proof.
  apply (proj1 (@UpdatePlotExtents_bounds [f32_one; fzero] [fzero]
                  [f32_neg_one; f32_one]
                  ltac:(repeat constructor) ltac:(repeat constructor)
                  ltac:(repeat constructor)));
    discriminate.
Defined.

Lemma py_min_ok (l : list float) : l <> [] -> exists v, py_min l = OK v.
Proof. destruct l; [contradiction | eexists; reflexivity]. Qed.

Lemma py_max_ok (l : list float) : l <> [] -> exists v, py_max l = OK v.
Proof. destruct l; [contradiction | eexists; reflexivity]. Qed.

(** X16: without previous extents, [UpdatePlotExtents] raises [ValueError]
    exactly when one of the three coordinate lists is empty; with previous
    extents it never raises, the empty lists included. *)
Theorem UpdatePlotExtents_empty_input (x y z : list float) :
  (UpdatePlotExtents x y z None = Raise ValueError <-> x = [] \/ y = [] \/ z = [])
  /\ (forall extents, exists r, UpdatePlotExtents x y z (Some extents) = OK r).
Proof.
  split.
  - destruct x as [|a x]; [simpl; tauto|].
    destruct y as [|b y]; [simpl; tauto|].
    destruct z as [|c z]; [simpl; tauto|].
    simpl. split; [discriminate|]. intros [H|[H|H]]; discriminate.
  - intros [[[[[e0 e1] e2] e3] e4] e5]. unfold UpdatePlotExtents.
    destruct (py_min_ok (app_pair_nonempty x e0 e1)) as (a & ->).
    destruct (py_max_ok (app_pair_nonempty x e0 e1)) as (b & ->).
    destruct (py_min_ok (app_pair_nonempty y e2 e3)) as (c & ->).
    destruct (py_max_ok (app_pair_nonempty y e2 e3)) as (d & ->).
    destruct (py_min_ok (app_pair_nonempty z e4 e5)) as (e & ->).
    destruct (py_max_ok (app_pair_nonempty z e4 e5)) as (f & ->).
    simpl. eexists; reflexivity.
Qed.

Lemma fold_min_drop_nan (l : list float) (a : float) :
  fold_left min_step l a = fold_left min_step (drop_nan l) a.
Proof.
  revert a; induction l as [|x l IH]; intros a; simpl; [reflexivity|].
  destruct (isnan x) eqn:E; simpl.
  - apply isnan_eq in E. subst x. unfold min_step at 2. rewrite flt_nan_l. apply IH.
  - apply IH.
Qed.

Lemma fold_max_drop_nan (l : list float) (a : float) :
  fold_left max_step l a = fold_left max_step (drop_nan l) a.
Proof.
  revert a; induction l as [|x l IH]; intros a; simpl; [reflexivity|].
  destruct (isnan x) eqn:E; simpl.
  - apply isnan_eq in E. subst x. unfold max_step at 2. rewrite fgt_nan_l. apply IH.
  - apply IH.
Qed.

(** X17: [min] and [max] skip a NaN unless it comes first: the extents of
    three non-empty lists are those of the lists with every NaN after the
    first item removed, and a NaN in first position makes both extents of
    its axis NaN. *)
Theorem UpdatePlotExtents_nan_items (a b c : float) (x y z : list float) :
  UpdatePlotExtents (a :: x) (b :: y) (c :: z) None
  = UpdatePlotExtents (a :: drop_nan x) (b :: drop_nan y) (c :: drop_nan z) None
  /\ (isnan a = true ->
      exists miny maxy minz maxz,
        UpdatePlotExtents (a :: x) (b :: y) (c :: z) None
        = OK (S754_nan, S754_nan, miny, maxy, minz, maxz)).
Proof.
  split.
  - unfold UpdatePlotExtents, py_min, py_max.
    now rewrite (fold_min_drop_nan x a), (fold_max_drop_nan x a),
      (fold_min_drop_nan y b), (fold_max_drop_nan y b),
      (fold_min_drop_nan z c), (fold_max_drop_nan z c).
  - intros Ha. unfold UpdatePlotExtents, py_min, py_max. cbn [bind].
    destruct (fold_min_spec x a) as (_ & Hmin & _).
    destruct (fold_max_spec x a) as (_ & Hmax & _).
    rewrite (Hmin Ha), (Hmax Ha). apply isnan_eq in Ha. subst a.
    repeat eexists.
Qed.

Lemma UpdatePlotExtents_nan_items_witness :
  exists miny maxy minz maxz,
    UpdatePlotExtents [S754_nan; f32_one] [fzero; S754_nan] [f32_one] None
    = OK (S754_nan, S754_nan, miny, maxy, minz, maxz).
Proof.
  apply (proj2 (UpdatePlotExtents_nan_items S754_nan fzero f32_one
                  [f32_one] [S754_nan] [])).
  reflexivity.
Defined.

Lemma flt_irrefl (a : float) : flt a a = false.
Proof.
  destruct (flt a a) eqn:E; [|reflexivity]. exfalso. open_keys. solve_keys.
Qed.

Lemma fgt_irrefl (a : float) : fgt a a = false.
Proof.
  destruct (fgt a a) eqn:E; [|reflexivity]. exfalso. open_keys. solve_keys.
Qed.

Lemma min_max_ordered (l : list float) (a : float) :
  let mn := fold_left min_step l a in
  let mx := fold_left max_step l a in
  flt mx mn = false /\ fgt mn mx = false.
Proof.
  intros mn mx.
  destruct (fold_min_spec l a) as (_ & Hmin & Hmin').
  destruct (fold_max_spec l a) as (_ & Hmax & Hmax').
  fold mn in Hmin, Hmin'. fold mx in Hmax, Hmax'.
  destruct (isnan a) eqn:Ha.
  - rewrite (Hmin eq_refl), (Hmax eq_refl). apply isnan_eq in Ha. subst a.
    split; reflexivity.
  - destruct (Hmin' eq_refl) as (_ & H1 & _).
    destruct (Hmax' eq_refl) as (_ & H2 & _).
    assert (H : fle mn mx = true) by (now apply fle_trans with (b := a)).
    split; [now apply fle_not_flt | now apply fle_not_fgt].
Qed.

Lemma py_min_max_fed_back (l : list float) (mn mx : float) :
  py_min l = OK mn -> py_max l = OK mx ->
  py_min (l ++ [mn; mx]) = OK mn /\ py_max (l ++ [mn; mx]) = OK mx.
Proof.
  destruct l as [|a l]; [discriminate|]. simpl.
  intros Hmn Hmx. injection Hmn as Hmn. injection Hmx as Hmx.
  destruct (min_max_ordered l a) as [H1 H2]. rewrite Hmn, Hmx in H1, H2.
  assert (E1 : min_step mn mn = mn) by (unfold min_step; now rewrite flt_irrefl).
  assert (E2 : min_step mn mx = mn) by (unfold min_step; now rewrite H1).
  assert (E3 : max_step mx mn = mx) by (unfold max_step; now rewrite H2).
  assert (E4 : max_step mx mx = mx) by (unfold max_step; now rewrite fgt_irrefl).
  rewrite !fold_left_app. cbn [fold_left]. rewrite Hmn, Hmx.
  now rewrite E1, E2, E3, E4.
Qed.

(** X18: extents fed back with the points they were computed from do not
    move: if [UpdatePlotExtents] returns [e] for three lists without previous
    extents, it returns [e] again for the same lists with [e] as previous
    extents, NaN items included. *)
Theorem UpdatePlotExtents_fed_back (x y z : list float) (e : extents6) :
  UpdatePlotExtents x y z None = OK e ->
  UpdatePlotExtents x y z (Some e) = OK e.
Proof.
  unfold UpdatePlotExtents.
  destruct (py_min x) as [a|] eqn:Ea; [|discriminate].
  destruct (py_max x) as [b|] eqn:Eb; [|discriminate].
  destruct (py_min y) as [c|] eqn:Ec; [|discriminate].
  destruct (py_max y) as [d|] eqn:Ed; [|discriminate].
  destruct (py_min z) as [f|] eqn:Ef; [|discriminate].
  destruct (py_max z) as [g|] eqn:Eg; [|discriminate].
  simpl. intros H; injection H as <-.
  destruct (py_min_max_fed_back x Ea Eb) as [-> ->].
  destruct (py_min_max_fed_back y Ec Ed) as [-> ->].
  destruct (py_min_max_fed_back z Ef Eg) as [-> ->].
  reflexivity.
Qed.

Lemma UpdatePlotExtents_fed_back_witness :
  UpdatePlotExtents [f32_one; fzero] [fzero] [f32_neg_one; S754_nan]
    (Some (fzero, f32_one, fzero, fzero, f32_neg_one, f32_neg_one))
  = OK (fzero, f32_one, fzero, fzero, f32_neg_one, f32_neg_one).
Proof.
  apply (@UpdatePlotExtents_fed_back [f32_one; fzero] [fzero] [f32_neg_one; S754_nan]).
  reflexivity.
Defined.


(** * Range filters and the NaN filter *)

Lemma workspace_keeps_no_nan (w : workspace) (v : vec3) :
  workspace_keeps w v = true -> has_no_nan v = true.
Proof.
  unfold workspace_keeps. intros H.
  apply andb_true_iff in H as [H Hz]. apply andb_true_iff in H as [Hx Hy].
  apply in_range_not_nan in Hx, Hy, Hz.
  unfold has_no_nan, row_any. now rewrite Hx, Hy, Hz.
Qed.

Lemma filter_absorbs {A} (p q : A -> bool) (l : list A) :
  (forall a, p a = true -> q a = true) -> filter q (filter p l) = filter p l.
Proof.
  intros H. rewrite filter_twice. apply filter_ext_in. intros a _.
  destruct (p a) eqn:E; [now rewrite (H a E) | reflexivity].
Qed.

(** X19: [FilterNans] after [FilterWorkspace] removes nothing, so the cloud
    stays aligned with the normals that [FilterWorkspace] returned; and
    [FilterWorkspace] after [FilterNans] gives the same cloud as
    [FilterWorkspace] alone. *)
Theorem FilterWorkspace_absorbs_FilterNans (w : workspace) (cloud : array3)
    (normals : option array3) :
  (x <- FilterWorkspace w cloud normals ;; c <- FilterNans (fst x) ;; OK (c, snd x))
  = FilterWorkspace w cloud normals
  /\ (c <- FilterNans cloud ;; FilterWorkspace w c None)
     = FilterWorkspace w cloud None.
Proof.
  split.
  - rewrite FilterWorkspace_masked.
    destruct (masked (workspace_keeps w) cloud normals) as [[c n]|e] eqn:E;
      simpl; [|reflexivity].
    rewrite FilterNans_filter; simpl.
    assert (Hc : c = filter (workspace_keeps w) cloud).
    { unfold masked in E. destruct normals as [normals|].
      - destruct (Nat.eqb _ _); [|discriminate]. congruence.
      - congruence. }
    subst c. now rewrite (filter_absorbs _ _ cloud (workspace_keeps_no_nan w)).
  - rewrite FilterNans_filter; simpl. rewrite !FilterWorkspace_masked; simpl.
    rewrite filter_twice. do 2 f_equal. apply filter_ext. intros v.
    destruct (workspace_keeps w v) eqn:E.
    + now rewrite (workspace_keeps_no_nan w v E).
    + apply andb_false_r.
Qed.


(** * Orientation towards the viewpoints *)


